(** * Accounting CRM API: the entry approval workflow of [main.py]

    A shallow embedding of the FastAPI handlers of [src/main.py] over a
    document store, and the properties of the entry lifecycle proved on it.

    - A MongoDB document of the [accountingentry] collection is a record
      ([Doc.t]); the collection is a finite map from [ObjectId] to documents.
    - The module-level handle [db] is the state: [None] when the database is
      not configured, [Some c] otherwise.
    - A handler is a computation in a small state-and-exception monad [M]:
      it either returns a value or raises an [HTTPException], and threads the
      database through. Nothing is rolled back on a raise: what a raising
      handler leaves behind is whatever it had written before the raise.
    - [datetime.now(timezone.utc)] is an input of the handler: every call of
      the clock in a handler is an argument of its model, in source order. *)

From Stdlib Require Import ZArith Ascii String PrimFloat.
From stdpp Require Import gmap strings list fin_maps.

Open Scope Z_scope.
Open Scope string_scope.
Open Scope list_scope.

(** ** Values *)

(** [datetime]: an instant, as a number of microseconds since the epoch. *)
Abbreviation datetime := Z (only parsing).

(** The text [datetime.isoformat()] renders; the rendering is kept symbolic. *)
Inductive isotext : Type :=
| isoformat (t : datetime).

(** [bson.ObjectId]: the bytes of the identifier, kept as the text [str(oid)]
    returns, two lower-case hexadecimal digits per byte. A generated
    identifier has twelve bytes, so twenty-four digits. *)
Abbreviation ObjectId := string (only parsing).

Module ObjectIdOf.

Definition is_hex (c : ascii) : bool :=
  let n := N_of_ascii c in
  (((48 <=? n) && (n <=? 57)) || ((97 <=? n) && (n <=? 102))
   || ((65 <=? n) && (n <=? 70)))%N.

(** ASCII white space: tab, line feed, vertical tab, form feed, carriage
    return and space. *)
Definition is_space (c : ascii) : bool :=
  let n := N_of_ascii c in
  (((9 <=? n) && (n <=? 13)) || (n =? 32))%N.

Definition lower (c : ascii) : ascii :=
  let n := N_of_ascii c in
  if ((65 <=? n) && (n <=? 70))%N then ascii_of_N (n + 32) else c.

Fixpoint all_hex (s : string) : bool :=
  match s with
  | EmptyString => true
  | String c s' => is_hex c && all_hex s'
  end.

Fixpoint lower_all (s : string) : string :=
  match s with
  | EmptyString => EmptyString
  | String c s' => String (lower c) (lower_all s')
  end.

(** [bytes.fromhex(s)], the bytes given as [hexlify] prints them: two
    hexadecimal digits per byte, white space skipped before the first digit
    of a byte and at the end, nowhere else. [pending] is the first digit of
    the byte being read; [None] stands for the [ValueError]. *)
Fixpoint fromhex (pending : option ascii) (s : string) : option string :=
  match s with
  | EmptyString =>
      match pending with
      | None => Some EmptyString
      | Some _ => None
      end
  | String c s' =>
      match pending with
      | None =>
          if is_space c then fromhex None s'
          else if is_hex c then fromhex (Some c) s'
          else None
      | Some top =>
          if is_hex c
          then match fromhex None s' with
               | Some rest => Some (String (lower top) (String (lower c) rest))
               | None => None
               end
          else None
      end
  end.

(** [ObjectId(id_str)]: a text of twenty-four characters that
    [bytes.fromhex] reads; [None] stands for the [InvalidId] it raises. *)
Definition parse (id_str : string) : option ObjectId :=
  if (String.length id_str =? 24)%nat
  then fromhex None id_str
  else None.

End ObjectIdOf.

(** The six literals of [AccountingEntry.status]. *)
Inductive Status : Type :=
| draft
| submitted_for_review
| reentry_requested
| recheck_requested
| reviewed
| approved.

Definition Status_eqb (a b : Status) : bool :=
  match a, b with
  | draft, draft
  | submitted_for_review, submitted_for_review
  | reentry_requested, reentry_requested
  | recheck_requested, recheck_requested
  | reviewed, reviewed
  | approved, approved => true
  | _, _ => false
  end.

(** [s in [...]] on statuses. *)
Definition status_in (s : Status) (l : list Status) : bool :=
  existsb (Status_eqb s) l.

(** [Comment.role]: [Literal["creator", "reviewer", "approver"]]. *)
Inductive CommentRole : Type :=
| c_creator
| c_reviewer
| c_approver.

(** [UpdateEntryPayload.role] and [RolePayload.role]:
    [Literal["creator", "reviewer", "approver", "blackadam"]]. *)
Inductive Role : Type :=
| creator
| reviewer
| approver
| blackadam.

(** [ReviewerActionPayload.role]: [Literal["reviewer", "blackadam"]]. *)
Inductive ReviewerRole : Type :=
| rv_reviewer
| rv_blackadam.

(** [ApproverActionPayload.role]: [Literal["approver", "blackadam"]]. *)
Inductive ApproverRole : Type :=
| ap_approver
| ap_blackadam.

Inductive ReviewerAction : Type :=
| mark_reviewed
| request_reentry.

Inductive ApproverAction : Type :=
| approve
| request_rereview.

(** The literal each constructor stands for. *)
Definition CommentRole_str (r : CommentRole) : string :=
  match r with
  | c_creator => "creator"
  | c_reviewer => "reviewer"
  | c_approver => "approver"
  end.

Definition Role_str (r : Role) : string :=
  match r with
  | creator => "creator"
  | reviewer => "reviewer"
  | approver => "approver"
  | blackadam => "blackadam"
  end.

Definition ReviewerRole_str (r : ReviewerRole) : string :=
  match r with
  | rv_reviewer => "reviewer"
  | rv_blackadam => "blackadam"
  end.

Definition ApproverRole_str (r : ApproverRole) : string :=
  match r with
  | ap_approver => "approver"
  | ap_blackadam => "blackadam"
  end.

(** [role in ["creator", "blackadam"]]. *)
Definition role_in (r : Role) (l : list string) : bool :=
  existsb (String.eqb (Role_str r)) l.

(** Truth value of an [Optional[str]]: [None] and the empty string are false. *)
Definition truthy (s : option string) : bool :=
  match s with
  | Some s => negb (String.eqb s EmptyString)
  | None => false
  end.

(** [comment or default_msg]. *)
Definition str_or (s : option string) (default_msg : string) : string :=
  match s with
  | Some s => if String.eqb s EmptyString then default_msg else s
  | None => default_msg
  end.

(** ** Models and documents *)

Module Comment.
Record t : Type := mk
  { role : CommentRole;
    message : string;
    at_ : datetime }.
End Comment.

(** [AccountingEntry], the request model of [create_entry]. [body] is the
    JSON object received and [validate] is what pydantic makes of it: a field
    with a default takes the default when the body does not carry it, and
    the supplied value otherwise. *)
Module AccountingEntry.

Record t : Type := mk
  { title : string;
    amount : float;
    description : option string;
    status : Status;
    comments : list Comment.t;
    frozen : bool }.

Record body : Type := mk_body
  { b_title : string;
    b_amount : float;
    b_description : option string;
    b_status : option Status;
    b_comments : option (list Comment.t);
    b_frozen : option bool }.

Definition validate (b : body) : t :=
  {| title := b_title b;
     amount := b_amount b;
     description := b_description b;
     status := default draft (b_status b);
     comments := default [] (b_comments b);
     frozen := default false (b_frozen b) |}.

End AccountingEntry.

(** A document of the collection: the keys of [AccountingEntry.model_dump()],
    the two timestamps and [_id]. *)
Module Doc.
Record t : Type := mk
  { _id : ObjectId;
    title : string;
    amount : float;
    description : option string;
    status : Status;
    comments : list Comment.t;
    frozen : bool;
    created_at : datetime;
    updated_at : datetime }.
End Doc.

(** The dictionary of a [$set] update: a key is either absent or bound. *)
Module Updates.

Record t : Type := mk
  { title : option string;
    amount : option float;
    description : option string;
    status : option Status;
    frozen : option bool;
    updated_at : option datetime }.

Definition empty : t := mk None None None None None None.

Definition set_title (v : string) (u : t) : t :=
  mk (Some v) (amount u) (description u) (status u) (frozen u) (updated_at u).
Definition set_amount (v : float) (u : t) : t :=
  mk (title u) (Some v) (description u) (status u) (frozen u) (updated_at u).
Definition set_description (v : string) (u : t) : t :=
  mk (title u) (amount u) (Some v) (status u) (frozen u) (updated_at u).
Definition set_updated_at (v : datetime) (u : t) : t :=
  mk (title u) (amount u) (description u) (status u) (frozen u) (Some v).

(** [not updates]: the dictionary has no key. *)
Definition is_empty (u : t) : bool :=
  match u with
  | mk None None None None None None => true
  | _ => false
  end.

(** What [{"$set": updates}] does to a document. *)
Definition apply (u : t) (d : Doc.t) : Doc.t :=
  {| Doc._id := Doc._id d;
     Doc.title := default (Doc.title d) (title u);
     Doc.amount := default (Doc.amount d) (amount u);
     Doc.description :=
       match description u with
       | Some v => Some v
       | None => Doc.description d
       end;
     Doc.status := default (Doc.status d) (status u);
     Doc.comments := Doc.comments d;
     Doc.frozen := default (Doc.frozen d) (frozen u);
     Doc.created_at := Doc.created_at d;
     Doc.updated_at := default (Doc.updated_at d) (updated_at u) |}.

End Updates.

(** What [{"$push": {"comments": comment}}] does to a document. *)
Definition push_comment (c : Comment.t) (d : Doc.t) : Doc.t :=
  {| Doc._id := Doc._id d;
     Doc.title := Doc.title d;
     Doc.amount := Doc.amount d;
     Doc.description := Doc.description d;
     Doc.status := Doc.status d;
     Doc.comments := Doc.comments d ++ [c];
     Doc.frozen := Doc.frozen d;
     Doc.created_at := Doc.created_at d;
     Doc.updated_at := Doc.updated_at d |}.

(** ** Serialized entries *)

Module Entry.

Record comment : Type := mk_comment
  { role : CommentRole;
    message : string;
    at_ : isotext }.

Record t : Type := mk
  { id : string;
    title : string;
    amount : float;
    description : option string;
    status : Status;
    comments : list comment;
    frozen : bool;
    created_at : isotext;
    updated_at : isotext }.

End Entry.

Definition serialize_comment (c : Comment.t) : Entry.comment :=
  {| Entry.role := Comment.role c;
     Entry.message := Comment.message c;
     Entry.at_ := isoformat (Comment.at_ c) |}.

(** [serialize(doc)]: [None] for a missing document, else the document with
    [_id] as text under [id] and every timestamp in ISO form. *)
Definition serialize (doc : option Doc.t) : option Entry.t :=
  match doc with
  | None => None
  | Some d =>
      Some {| Entry.id := Doc._id d;
              Entry.title := Doc.title d;
              Entry.amount := Doc.amount d;
              Entry.description := Doc.description d;
              Entry.status := Doc.status d;
              Entry.comments := map serialize_comment (Doc.comments d);
              Entry.frozen := Doc.frozen d;
              Entry.created_at := isoformat (Doc.created_at d);
              Entry.updated_at := isoformat (Doc.updated_at d) |}
  end.


(** ** Exceptions and the handler monad *)

(** What a handler can raise: the [HTTPException]s it raises itself, and the
    exceptions of the libraries it calls, which it does not catch. *)
Inductive exn : Type :=
| HTTPException (status_code : Z) (detail : string)
| TypeError
| InvalidId
| DuplicateKeyError.

(** The status of the response: FastAPI answers an uncaught exception
    with 500. *)
Definition response_status (e : exn) : Z :=
  match e with
  | HTTPException status_code _ => status_code
  | TypeError | InvalidId | DuplicateKeyError => 500
  end.

Inductive result (A : Type) : Type :=
| Ok (a : A)
| Raise (e : exn).

Arguments Ok {A} a.
Arguments Raise {A} e.

(** The global [db]: the [accountingentry] collection, or [None]. *)
Abbreviation Collection := (gmap string Doc.t) (only parsing).
Abbreviation Database := (option (gmap string Doc.t)) (only parsing).

Definition M (A : Type) : Type := Database -> result A * Database.

#[global] Instance M_ret : MRet M := fun A a db => (Ok a, db).

#[global] Instance M_bind : MBind M := fun A B k m db =>
  match m db with
  | (Ok a, db') => k a db'
  | (Raise e, db') => (Raise e, db')
  end.

Definition raise {A : Type} (e : exn) : M A := fun db => (Raise e, db).

(** [db is None]. *)
Definition db_is_None : M bool := fun db =>
  (Ok (match db with None => true | Some _ => false end), db).

(** [db["accountingentry"]]: subscripting [None] is a [TypeError]. *)
Definition collection : M (gmap string Doc.t) := fun db =>
  match db with
  | Some c => (Ok c, db)
  | None => (Raise TypeError, db)
  end.

(** A write to the collection. *)
Definition store (c : gmap string Doc.t) : M unit := fun _ => (Ok tt, Some c).

(** [obj_id(id_str)]. *)
Definition obj_id (id_str : string) : M ObjectId :=
  match ObjectIdOf.parse id_str with
  | Some oid => mret oid
  | None => raise (HTTPException 400 "Invalid entry id")
  end.

(** [db["accountingentry"].find_one({"_id": obj_id(entry_id)})]: the
    subscript is evaluated before the argument. *)
Definition find_one (entry_id : string) : M (option Doc.t) :=
  c ← collection;
  oid ← obj_id entry_id;
  mret (c !! oid).

(** [db["accountingentry"].update_one({"_id": obj_id(entry_id)}, update)],
    [update] given by what it does to the document; no document, no change. *)
Definition update_one (entry_id : string) (update : Doc.t -> Doc.t) : M unit :=
  c ← collection;
  oid ← obj_id entry_id;
  store (alter update oid c).

(** Modelled from the spec: [create_document] of [database.py], which is not
    among the sources. The spec has the document store "insert" one record
    per entry, the entry's [id] "assigned at creation", and [created_at] and
    [updated_at] timestamps on every entry; the call site passes the
    validated model and takes the new identifier back as text. The
    identifier [oid] the driver generates and the two clock readings are
    inputs; a taken identifier is the store's duplicate-key error. *)
Definition create_document (data : AccountingEntry.t) (oid : ObjectId)
    (t_created t_updated : datetime) : M string :=
  c ← collection;
  match c !! oid with
  | Some _ => raise DuplicateKeyError
  | None =>
      let doc :=
        {| Doc._id := oid;
           Doc.title := AccountingEntry.title data;
           Doc.amount := AccountingEntry.amount data;
           Doc.description := AccountingEntry.description data;
           Doc.status := AccountingEntry.status data;
           Doc.comments := AccountingEntry.comments data;
           Doc.frozen := AccountingEntry.frozen data;
           Doc.created_at := t_created;
           Doc.updated_at := t_updated |} in
      store (<[oid := doc]> c);;
      mret oid
  end.

(** ** The handlers *)

(** [POST /api/entries]. *)
Definition create_entry (entry : AccountingEntry.t) (oid : ObjectId)
    (t_created t_updated : datetime) : M (option Entry.t) :=
  none ← db_is_None;
  if (none : bool) then raise (HTTPException 500 "Database not configured")
  else
    inserted_id ← create_document entry oid t_created t_updated;
    c ← collection;
    match ObjectIdOf.parse inserted_id with
    | None => raise InvalidId
    | Some oid' => mret (serialize (c !! oid'))
    end.

Module UpdateEntryPayload.
Record t : Type := mk
  { title : option string;
    amount : option float;
    description : option string;
    role : Role }.
End UpdateEntryPayload.

(** [PATCH /api/entries/{entry_id}]. *)
Definition update_entry (entry_id : string) (payload : UpdateEntryPayload.t)
    (now : datetime) : M (option Entry.t) :=
  none ← db_is_None;
  if (none : bool) then raise (HTTPException 500 "Database not configured")
  else
    doc ← find_one entry_id;
    match doc with
    | None => raise (HTTPException 404 "Entry not found")
    | Some doc =>
        if Doc.frozen doc
        then raise (HTTPException 400 "Entry is frozen and cannot be updated")
        else if negb (status_in (Doc.status doc) [draft; reentry_requested])
        then raise (HTTPException 400
               "Entry can only be updated in draft or reentry_requested state")
        else
          let updates := Updates.empty in
          let updates :=
            match UpdateEntryPayload.title payload with
            | Some v => Updates.set_title v updates
            | None => updates
            end in
          let updates :=
            match UpdateEntryPayload.amount payload with
            | Some v => Updates.set_amount v updates
            | None => updates
            end in
          let updates :=
            match UpdateEntryPayload.description payload with
            | Some v => Updates.set_description v updates
            | None => updates
            end in
          if Updates.is_empty updates then mret (serialize (Some doc))
          else
            let updates := Updates.set_updated_at now updates in
            update_one entry_id (Updates.apply updates);;
            new_doc ← find_one entry_id;
            mret (serialize new_doc)
    end.

Module RolePayload.
Record t : Type := mk
  { role : Role;
    comment : option string }.
End RolePayload.

(** [PATCH /api/entries/{entry_id}/submit]. [t_updated] is the clock read
    for [updated_at], [t_comment] the one read for the comment's [at]. *)
Definition submit_for_review (entry_id : string) (payload : RolePayload.t)
    (t_updated t_comment : datetime) : M (option Entry.t) :=
  doc ← find_one entry_id;
  match doc with
  | None => raise (HTTPException 404 "Entry not found")
  | Some doc =>
      if Doc.frozen doc
      then raise (HTTPException 400 "Entry is frozen")
      else if negb (role_in (RolePayload.role payload) ["creator"; "blackadam"])
      then raise (HTTPException 403 "Only creator can submit for review")
      else if negb (status_in (Doc.status doc) [draft; reentry_requested])
      then raise (HTTPException 400
             "Only draft or reentry_requested entries can be submitted")
      else
        let updates :=
          Updates.mk None None None (Some submitted_for_review) None
            (Some t_updated) in
        (if truthy (RolePayload.comment payload)
         then
           let comment :=
             Comment.mk c_creator
               (default EmptyString (RolePayload.comment payload)) t_comment in
           update_one entry_id (push_comment comment)
         else mret tt);;
        update_one entry_id (Updates.apply updates);;
        new_doc ← find_one entry_id;
        mret (serialize new_doc)
  end.

Module ReviewerActionPayload.
Record t : Type := mk
  { role : ReviewerRole;
    action : ReviewerAction;
    comment : option string }.
End ReviewerActionPayload.

(** [PATCH /api/entries/{entry_id}/review]. *)
Definition reviewer_action (entry_id : string)
    (payload : ReviewerActionPayload.t)
    (t_updated t_comment : datetime) : M (option Entry.t) :=
  doc ← find_one entry_id;
  match doc with
  | None => raise (HTTPException 404 "Entry not found")
  | Some doc =>
      if Doc.frozen doc
      then raise (HTTPException 400 "Entry is frozen")
      else if negb (status_in (Doc.status doc)
                      [submitted_for_review; recheck_requested])
      then raise (HTTPException 400 "Entry is not ready for reviewer action")
      else
        let '(updates, comment_role, default_msg) :=
          match ReviewerActionPayload.action payload with
          | mark_reviewed =>
              (Updates.mk None None None (Some reviewed) None None,
               c_reviewer, "Marked as reviewed")
          | request_reentry =>
              (Updates.mk None None None (Some reentry_requested) None None,
               c_reviewer, "Re-entry requested")
          end in
        let updates := Updates.set_updated_at t_updated updates in
        (if truthy (Some (str_or (ReviewerActionPayload.comment payload)
                            default_msg))
         then
           let message :=
             str_or (ReviewerActionPayload.comment payload) default_msg in
           let comment := Comment.mk comment_role message t_comment in
           update_one entry_id (push_comment comment)
         else mret tt);;
        update_one entry_id (Updates.apply updates);;
        new_doc ← find_one entry_id;
        mret (serialize new_doc)
  end.

Module ApproverActionPayload.
Record t : Type := mk
  { role : ApproverRole;
    action : ApproverAction;
    comment : option string }.
End ApproverActionPayload.

(** [PATCH /api/entries/{entry_id}/approve]. *)
Definition approver_action (entry_id : string)
    (payload : ApproverActionPayload.t)
    (t_updated t_comment : datetime) : M (option Entry.t) :=
  doc ← find_one entry_id;
  match doc with
  | None => raise (HTTPException 404 "Entry not found")
  | Some doc =>
      if Doc.frozen doc
      then raise (HTTPException 400 "Entry is frozen")
      else if negb (Status_eqb (Doc.status doc) reviewed)
      then raise (HTTPException 400
             "Only reviewed entries can be approved or re-reviewed")
      else
        let '(updates, default_msg) :=
          match ApproverActionPayload.action payload with
          | approve =>
              (Updates.mk None None None (Some approved) (Some true) None,
               "Approved")
          | request_rereview =>
              (Updates.mk None None None (Some recheck_requested) None None,
               "Re-review requested")
          end in
        let updates := Updates.set_updated_at t_updated updates in
        let message :=
          str_or (ApproverActionPayload.comment payload) default_msg in
        let comment := Comment.mk c_approver message t_comment in
        update_one entry_id (push_comment comment);;
        update_one entry_id (Updates.apply updates);;
        new_doc ← find_one entry_id;
        mret (serialize new_doc)
  end.

(** [GET /api/entries/{entry_id}]. *)
Definition get_entry (entry_id : string) : M (option Entry.t) :=
  doc ← find_one entry_id;
  match doc with
  | None => raise (HTTPException 404 "Entry not found")
  | Some doc => mret (serialize (Some doc))
  end.

(** ** The rejections, by the names the specification gives them *)

Inductive ErrorKind : Type :=
| BadId
| NotFound
| Frozen
| InvalidState
| Forbidden
| StoreUnavailable.

(** Each [HTTPException] a handler raises, told apart by its detail; the
    library exceptions a handler lets through have no name of their own. *)
Definition error_kind (e : exn) : option ErrorKind :=
  match e with
  | HTTPException _ detail =>
      if String.eqb detail "Invalid entry id" then Some BadId
      else if String.eqb detail "Entry not found" then Some NotFound
      else if String.eqb detail "Entry is frozen"
              || String.eqb detail "Entry is frozen and cannot be updated"
      then Some Frozen
      else if String.eqb detail
                "Entry can only be updated in draft or reentry_requested state"
              || String.eqb detail
                   "Only draft or reentry_requested entries can be submitted"
              || String.eqb detail "Entry is not ready for reviewer action"
              || String.eqb detail
                   "Only reviewed entries can be approved or re-reviewed"
      then Some InvalidState
      else if String.eqb detail "Only creator can submit for review"
      then Some Forbidden
      else if String.eqb detail "Database not configured"
      then Some StoreUnavailable
      else None
  | TypeError | InvalidId | DuplicateKeyError => None
  end.

(** ** The document a successful handler leaves in the store *)

(** The [updates] dictionary [update_entry] builds from its payload, before
    [updated_at] is added. *)
Definition payload_updates (payload : UpdateEntryPayload.t) : Updates.t :=
  let updates := Updates.empty in
  let updates :=
    match UpdateEntryPayload.title payload with
    | Some v => Updates.set_title v updates
    | None => updates
    end in
  let updates :=
    match UpdateEntryPayload.amount payload with
    | Some v => Updates.set_amount v updates
    | None => updates
    end in
  match UpdateEntryPayload.description payload with
  | Some v => Updates.set_description v updates
  | None => updates
  end.

Definition updated_doc (payload : UpdateEntryPayload.t) (now : datetime)
    (d : Doc.t) : Doc.t :=
  Updates.apply (Updates.set_updated_at now (payload_updates payload)) d.

Definition submitted_doc (payload : RolePayload.t)
    (t_updated t_comment : datetime) (d : Doc.t) : Doc.t :=
  Updates.apply
    (Updates.mk None None None (Some submitted_for_review) None
       (Some t_updated))
    (if truthy (RolePayload.comment payload)
     then push_comment
            (Comment.mk c_creator
               (default EmptyString (RolePayload.comment payload)) t_comment) d
     else d).

Definition reviewer_status (a : ReviewerAction) : Status :=
  match a with
  | mark_reviewed => reviewed
  | request_reentry => reentry_requested
  end.

Definition reviewer_default_msg (a : ReviewerAction) : string :=
  match a with
  | mark_reviewed => "Marked as reviewed"
  | request_reentry => "Re-entry requested"
  end.

Definition reviewed_doc (payload : ReviewerActionPayload.t)
    (t_updated t_comment : datetime) (d : Doc.t) : Doc.t :=
  Updates.apply
    (Updates.mk None None None
       (Some (reviewer_status (ReviewerActionPayload.action payload)))
       None (Some t_updated))
    (push_comment
       (Comment.mk c_reviewer
          (str_or (ReviewerActionPayload.comment payload)
             (reviewer_default_msg (ReviewerActionPayload.action payload)))
          t_comment) d).

Definition approver_status (a : ApproverAction) : Status :=
  match a with
  | approve => approved
  | request_rereview => recheck_requested
  end.

Definition approver_frozen (a : ApproverAction) : option bool :=
  match a with
  | approve => Some true
  | request_rereview => None
  end.

Definition approver_default_msg (a : ApproverAction) : string :=
  match a with
  | approve => "Approved"
  | request_rereview => "Re-review requested"
  end.

Definition approved_doc (payload : ApproverActionPayload.t)
    (t_updated t_comment : datetime) (d : Doc.t) : Doc.t :=
  Updates.apply
    (Updates.mk None None None
       (Some (approver_status (ApproverActionPayload.action payload)))
       (approver_frozen (ApproverActionPayload.action payload))
       (Some t_updated))
    (push_comment
       (Comment.mk c_approver
          (str_or (ApproverActionPayload.comment payload)
             (approver_default_msg (ApproverActionPayload.action payload)))
          t_comment) d).

(** The document [create_document] inserts. *)
Definition created_doc (data : AccountingEntry.t) (oid : ObjectId)
    (t_created t_updated : datetime) : Doc.t :=
  {| Doc._id := oid;
     Doc.title := AccountingEntry.title data;
     Doc.amount := AccountingEntry.amount data;
     Doc.description := AccountingEntry.description data;
     Doc.status := AccountingEntry.status data;
     Doc.comments := AccountingEntry.comments data;
     Doc.frozen := AccountingEntry.frozen data;
     Doc.created_at := t_created;
     Doc.updated_at := t_updated |}.

(** ** Sequences of requests *)

(** One request to one of the six entry handlers ([create_entry],
    [update_entry], [submit_for_review], [reviewer_action],
    [approver_action], [get_entry]), with the clock readings (and, for a
    creation, the generated identifier) the handler will see. *)
Inductive Op : Type :=
| Create (body : AccountingEntry.body) (oid : ObjectId)
    (t_created t_updated : datetime)
| UpdateFields (entry_id : string) (payload : UpdateEntryPayload.t)
    (now : datetime)
| Submit (entry_id : string) (payload : RolePayload.t)
    (t_updated t_comment : datetime)
| Review (entry_id : string) (payload : ReviewerActionPayload.t)
    (t_updated t_comment : datetime)
| Approve (entry_id : string) (payload : ApproverActionPayload.t)
    (t_updated t_comment : datetime)
| Fetch (entry_id : string).

Definition handle (op : Op) : M (option Entry.t) :=
  match op with
  | Create body oid t_created t_updated =>
      create_entry (AccountingEntry.validate body) oid t_created t_updated
  | UpdateFields entry_id payload now => update_entry entry_id payload now
  | Submit entry_id payload t_updated t_comment =>
      submit_for_review entry_id payload t_updated t_comment
  | Review entry_id payload t_updated t_comment =>
      reviewer_action entry_id payload t_updated t_comment
  | Approve entry_id payload t_updated t_comment =>
      approver_action entry_id payload t_updated t_comment
  | Fetch entry_id => get_entry entry_id
  end.

(** The database after a request, whatever the response. *)
Definition exec (op : Op) (db : Database) : Database := snd (handle op db).

Definition exec_all (ops : list Op) (db : Database) : Database :=
  fold_left (fun db op => exec op db) ops db.

Definition frozen_iff_approved (d : Doc.t) : Prop :=
  Doc.frozen d = true <-> Doc.status d = approved.

(** The lifecycle invariant over every store the API can build from an
    empty collection, creations unrestricted. *)
Definition frozen_iff_approved_always : Prop :=
  forall (ops : list Op) (c : gmap string Doc.t) (oid : string) (d : Doc.t),
    exec_all ops (Some ∅) = Some c -> c !! oid = Some d ->
    frozen_iff_approved d.

(** A creation whose [frozen] and [status], supplied or defaulted, agree;
    every other request qualifies. *)
Definition agreeing_creation (op : Op) : Prop :=
  match op with
  | Create body _ _ _ =>
      AccountingEntry.frozen (AccountingEntry.validate body) = true <->
      AccountingEntry.status (AccountingEntry.validate body) = approved
  | _ => True
  end.

(** Creation forcing [draft], no comment and [frozen = false] on every
    entry it returns. *)
Definition creation_forces_defaults : Prop :=
  forall (body : AccountingEntry.body) (oid : string)
         (t_created t_updated : datetime) (db db' : Database) (e : Entry.t),
    create_entry (AccountingEntry.validate body) oid t_created t_updated db
      = (Ok (Some e), db') ->
    Entry.status e = draft /\ Entry.comments e = [] /\ Entry.frozen e = false.

(** The identifier text is canonical: parsing gives it back. *)
Definition canonical (oid : ObjectId) : Prop :=
  ObjectIdOf.parse oid = Some oid.

(** Create, submit as creator, review, approve and fetch, each request
    addressing the entry by the [id] the creation returned. *)
Definition approval_scenario (title : string) (amount : float)
    (oid : ObjectId) (t1 t2 t3 t4 t5 t6 t7 t8 : datetime)
  : M (option Entry.t) :=
  created ← create_entry
    (AccountingEntry.validate
       (AccountingEntry.mk_body title amount None None None None))
    oid t1 t2;
  let entry_id := from_option Entry.id EmptyString created in
  submit_for_review entry_id (RolePayload.mk creator None) t3 t4;;
  reviewer_action entry_id
    (ReviewerActionPayload.mk rv_reviewer mark_reviewed None) t5 t6;;
  approver_action entry_id
    (ApproverActionPayload.mk ap_approver approve None) t7 t8;;
  get_entry entry_id.

(** What a request other than a creation can do to the collection: nothing,
    or replace one unfrozen document by one on which [frozen] and [status]
    agree. *)
Inductive patched (c : gmap string Doc.t) : gmap string Doc.t -> Prop :=
| patched_same : patched c c
| patched_doc (oid : string) (d d' : Doc.t) :
    c !! oid = Some d ->
    Doc.frozen d = false ->
    frozen_iff_approved d' ->
    patched c (<[oid := d']> c).

(** ** One request, seen from one document *)

(** The identifier text a request addresses; a creation addresses none. *)
Definition target (op : Op) : option string :=
  match op with
  | Create _ _ _ _ => None
  | UpdateFields entry_id _ _
  | Submit entry_id _ _ _
  | Review entry_id _ _ _
  | Approve entry_id _ _ _
  | Fetch entry_id => Some entry_id
  end.

(** What a request makes of the document it addresses: the document itself
    wherever the handler raises or returns early, the rewritten document
    where it goes through. *)
Definition doc_after (op : Op) (d : Doc.t) : Doc.t :=
  match op with
  | Create _ _ _ _ => d
  | Fetch _ => d
  | UpdateFields _ payload now =>
      if Doc.frozen d then d
      else if negb (status_in (Doc.status d) [draft; reentry_requested])
      then d
      else if Updates.is_empty (payload_updates payload) then d
      else updated_doc payload now d
  | Submit _ payload t_updated t_comment =>
      if Doc.frozen d then d
      else if negb (role_in (RolePayload.role payload)
                      ["creator"; "blackadam"])
      then d
      else if negb (status_in (Doc.status d) [draft; reentry_requested])
      then d
      else submitted_doc payload t_updated t_comment d
  | Review _ payload t_updated t_comment =>
      if Doc.frozen d then d
      else if negb (status_in (Doc.status d)
                      [submitted_for_review; recheck_requested])
      then d
      else reviewed_doc payload t_updated t_comment d
  | Approve _ payload t_updated t_comment =>
      if Doc.frozen d then d
      else if negb (Status_eqb (Doc.status d) reviewed) then d
      else approved_doc payload t_updated t_comment d
  end.

(** The status changes the handlers make, as a table: the guard of each
    handler against the status it writes. *)
Definition transition (s s' : Status) : bool :=
  match s, s' with
  | draft, submitted_for_review
  | reentry_requested, submitted_for_review
  | submitted_for_review, reviewed
  | submitted_for_review, reentry_requested
  | recheck_requested, reviewed
  | recheck_requested, reentry_requested
  | reviewed, approved
  | reviewed, recheck_requested => true
  | _, _ => false
  end.

Definition transition_rel (s s' : Status) : Prop := transition s s' = true.

(** Every document sits under its own [_id]. *)
Definition well_keyed (c : gmap string Doc.t) : Prop :=
  forall (oid : string) (d : Doc.t), c !! oid = Some d -> Doc._id d = oid.

(** Every key of the store is the text of a twelve-byte identifier, as
    the store's own [_id]s are. *)
Definition canonical_keys (c : gmap string Doc.t) : Prop :=
  forall (oid : string) (d : Doc.t), c !! oid = Some d -> canonical oid.

(** A reviewer sends the entry back, the creator corrects its title and
    submits it again. *)
Definition reentry_scenario (entry_id : string) (title : string)
    (t1 t2 t3 t4 t5 : datetime) : M (option Entry.t) :=
  reviewer_action entry_id
    (ReviewerActionPayload.mk rv_reviewer request_reentry None) t1 t2;;
  update_entry entry_id
    (UpdateEntryPayload.mk (Some title) None None creator) t3;;
  submit_for_review entry_id (RolePayload.mk creator None) t4 t5.

(** * Properties *)

(** ** Running the monad *)

Lemma bind_run {A B : Type} (m : M A) (k : A -> M B) (db : Database) :
  (m ≫= k) db =
    match m db with
    | (Ok a, db') => k a db'
    | (Raise e, db') => (Raise e, db')
    end.
Proof. reflexivity. Qed.

Lemma bind_ok {A B : Type} (m : M A) (k : A -> M B) (db db' : Database)
    (a : A) :
  m db = (Ok a, db') -> (m ≫= k) db = k a db'.
Proof. intros H. rewrite bind_run, H. reflexivity. Qed.

Lemma bind_raise {A B : Type} (m : M A) (k : A -> M B) (db db' : Database)
    (e : exn) :
  m db = (Raise e, db') -> (m ≫= k) db = (Raise e, db').
Proof. intros H. rewrite bind_run, H. reflexivity. Qed.

Lemma alter_found (f : Doc.t -> Doc.t) (c : gmap string Doc.t)
    (oid : string) (d : Doc.t) :
  c !! oid = Some d -> alter f oid c = <[oid := f d]> c.
Proof.
  intros H. apply map_eq. intros i. rewrite lookup_alter, lookup_insert.
  case_decide; subst; [by rewrite H | done].
Qed.

Lemma alter_missing (f : Doc.t -> Doc.t) (c : gmap string Doc.t)
    (oid : string) :
  c !! oid = None -> alter f oid c = c.
Proof.
  intros H. apply map_eq. intros i. rewrite lookup_alter.
  case_decide; subst; [by rewrite H | done].
Qed.

Lemma find_one_run (c : gmap string Doc.t) (entry_id oid : string) :
  ObjectIdOf.parse entry_id = Some oid ->
  find_one entry_id (Some c) = (Ok (c !! oid), Some c).
Proof.
  intros H. unfold find_one, obj_id. rewrite !bind_run. cbn.
  rewrite H. reflexivity.
Qed.

Lemma find_one_bad_id (c : gmap string Doc.t) (entry_id : string) :
  ObjectIdOf.parse entry_id = None ->
  find_one entry_id (Some c)
    = (Raise (HTTPException 400 "Invalid entry id"), Some c).
Proof.
  intros H. unfold find_one, obj_id. rewrite !bind_run. cbn.
  rewrite H. reflexivity.
Qed.

Lemma find_one_no_db (entry_id : string) :
  find_one entry_id None = (Raise TypeError, None).
Proof. reflexivity. Qed.

Lemma update_one_run (c : gmap string Doc.t) (entry_id oid : string)
    (f : Doc.t -> Doc.t) :
  ObjectIdOf.parse entry_id = Some oid ->
  update_one entry_id f (Some c) = (Ok tt, Some (alter f oid c)).
Proof.
  intros H. unfold update_one, obj_id. rewrite !bind_run. cbn.
  rewrite H. reflexivity.
Qed.

Ltac run_step Hp :=
  first
    [ erewrite bind_ok by (apply update_one_run; exact Hp)
    | erewrite bind_ok by (apply find_one_run; exact Hp)
    | erewrite bind_ok by reflexivity ].

(** Two writes to the found document and the final read. *)
Ltac run_writes Hp Hd :=
  repeat run_step Hp;
  rewrite ?(alter_found _ _ _ _ Hd);
  repeat run_step Hp;
  try (erewrite alter_found by apply lookup_insert_eq);
  rewrite ?insert_insert_eq;
  repeat run_step Hp;
  rewrite ?lookup_insert_eq.

Lemma truthy_str_or (s : option string) (default_msg : string) :
  default_msg <> EmptyString -> truthy (Some (str_or s default_msg)) = true.
Proof.
  intros Hd. unfold truthy, str_or. destruct s as [s|].
  - destruct (String.eqb s EmptyString) eqn:E.
    + apply negb_true_iff, String.eqb_neq. exact Hd.
    + rewrite E. reflexivity.
  - apply negb_true_iff, String.eqb_neq. exact Hd.
Qed.

(** ** What each handler does to a document it finds *)

Lemma update_entry_run (c : gmap string Doc.t) (entry_id oid : string)
    (d : Doc.t) (p : UpdateEntryPayload.t) (now : datetime) :
  ObjectIdOf.parse entry_id = Some oid ->
  c !! oid = Some d ->
  update_entry entry_id p now (Some c) =
    if Doc.frozen d
    then (Raise (HTTPException 400 "Entry is frozen and cannot be updated"),
          Some c)
    else if negb (status_in (Doc.status d) [draft; reentry_requested])
    then (Raise (HTTPException 400
            "Entry can only be updated in draft or reentry_requested state"),
          Some c)
    else if Updates.is_empty (payload_updates p)
    then (Ok (serialize (Some d)), Some c)
    else (Ok (serialize (Some (updated_doc p now d))),
          Some (<[oid := updated_doc p now d]> c)).
Proof.
  intros Hp Hd. unfold update_entry. run_step Hp. cbn iota.
  run_step Hp. rewrite Hd.
  destruct (Doc.frozen d); [reflexivity|].
  destruct (negb (status_in _ _)); [reflexivity|].
  fold (payload_updates p).
  destruct (Updates.is_empty (payload_updates p)); [reflexivity|].
  unfold updated_doc. run_writes Hp Hd. reflexivity.
Qed.

Lemma submit_for_review_run (c : gmap string Doc.t) (entry_id oid : string)
    (d : Doc.t) (p : RolePayload.t) (t1 t2 : datetime) :
  ObjectIdOf.parse entry_id = Some oid ->
  c !! oid = Some d ->
  submit_for_review entry_id p t1 t2 (Some c) =
    if Doc.frozen d
    then (Raise (HTTPException 400 "Entry is frozen"), Some c)
    else if negb (role_in (RolePayload.role p) ["creator"; "blackadam"])
    then (Raise (HTTPException 403 "Only creator can submit for review"),
          Some c)
    else if negb (status_in (Doc.status d) [draft; reentry_requested])
    then (Raise (HTTPException 400
            "Only draft or reentry_requested entries can be submitted"),
          Some c)
    else (Ok (serialize (Some (submitted_doc p t1 t2 d))),
          Some (<[oid := submitted_doc p t1 t2 d]> c)).
Proof.
  intros Hp Hd. unfold submit_for_review. run_step Hp. rewrite Hd.
  destruct (Doc.frozen d); [reflexivity|].
  destruct (negb (role_in _ _)); [reflexivity|].
  destruct (negb (status_in _ _)); [reflexivity|].
  unfold submitted_doc.
  destruct (truthy _); run_writes Hp Hd; reflexivity.
Qed.

Lemma reviewer_action_run (c : gmap string Doc.t) (entry_id oid : string)
    (d : Doc.t) (p : ReviewerActionPayload.t) (t1 t2 : datetime) :
  ObjectIdOf.parse entry_id = Some oid ->
  c !! oid = Some d ->
  reviewer_action entry_id p t1 t2 (Some c) =
    if Doc.frozen d
    then (Raise (HTTPException 400 "Entry is frozen"), Some c)
    else if negb (status_in (Doc.status d)
                    [submitted_for_review; recheck_requested])
    then (Raise (HTTPException 400 "Entry is not ready for reviewer action"),
          Some c)
    else (Ok (serialize (Some (reviewed_doc p t1 t2 d))),
          Some (<[oid := reviewed_doc p t1 t2 d]> c)).
Proof.
  intros Hp Hd. unfold reviewer_action. run_step Hp. rewrite Hd.
  destruct (Doc.frozen d); [reflexivity|].
  destruct (negb (status_in _ _)); [reflexivity|].
  unfold reviewed_doc.
  destruct (ReviewerActionPayload.action p); cbn iota beta zeta;
    rewrite truthy_str_or by discriminate;
    run_writes Hp Hd; reflexivity.
Qed.

Lemma approver_action_run (c : gmap string Doc.t) (entry_id oid : string)
    (d : Doc.t) (p : ApproverActionPayload.t) (t1 t2 : datetime) :
  ObjectIdOf.parse entry_id = Some oid ->
  c !! oid = Some d ->
  approver_action entry_id p t1 t2 (Some c) =
    if Doc.frozen d
    then (Raise (HTTPException 400 "Entry is frozen"), Some c)
    else if negb (Status_eqb (Doc.status d) reviewed)
    then (Raise (HTTPException 400
            "Only reviewed entries can be approved or re-reviewed"),
          Some c)
    else (Ok (serialize (Some (approved_doc p t1 t2 d))),
          Some (<[oid := approved_doc p t1 t2 d]> c)).
Proof.
  intros Hp Hd. unfold approver_action. run_step Hp. rewrite Hd.
  destruct (Doc.frozen d); [reflexivity|].
  destruct (negb (Status_eqb _ _)); [reflexivity|].
  unfold approved_doc.
  destruct (ApproverActionPayload.action p); cbn iota beta zeta;
    run_writes Hp Hd; reflexivity.
Qed.

Lemma get_entry_run (c : gmap string Doc.t) (entry_id oid : string)
    (d : Doc.t) :
  ObjectIdOf.parse entry_id = Some oid ->
  c !! oid = Some d ->
  get_entry entry_id (Some c) = (Ok (serialize (Some d)), Some c).
Proof.
  intros Hp Hd. unfold get_entry. run_step Hp. rewrite Hd. reflexivity.
Qed.

Lemma create_document_run (c : gmap string Doc.t) (data : AccountingEntry.t)
    (oid : string) (t1 t2 : datetime) :
  c !! oid = None ->
  create_document data oid t1 t2 (Some c) =
    (Ok oid, Some (<[oid := created_doc data oid t1 t2]> c)).
Proof.
  intros Hn. unfold create_document.
  erewrite bind_ok by reflexivity. rewrite Hn. reflexivity.
Qed.

Lemma create_document_taken (c : gmap string Doc.t) (data : AccountingEntry.t)
    (oid : string) (t1 t2 : datetime) (d : Doc.t) :
  c !! oid = Some d ->
  create_document data oid t1 t2 (Some c) = (Raise DuplicateKeyError, Some c).
Proof.
  intros Hd. unfold create_document.
  erewrite bind_ok by reflexivity. rewrite Hd. reflexivity.
Qed.

Lemma create_entry_run (c : gmap string Doc.t) (data : AccountingEntry.t)
    (oid : string) (t1 t2 : datetime) :
  c !! oid = None ->
  canonical oid ->
  create_entry data oid t1 t2 (Some c) =
    (Ok (serialize (Some (created_doc data oid t1 t2))),
     Some (<[oid := created_doc data oid t1 t2]> c)).
Proof.
  intros Hn Hc. unfold create_entry.
  erewrite bind_ok by reflexivity. cbn iota.
  erewrite bind_ok by (apply create_document_run; exact Hn).
  erewrite bind_ok by reflexivity.
  rewrite Hc, lookup_insert_eq. reflexivity.
Qed.

(** ** What each handler does to the collection *)

Lemma status_in_not_approved (s : Status) (l : list Status) :
  status_in approved l = false -> status_in s l = true -> s <> approved.
Proof. intros H1 H2 ->. congruence. Qed.

Lemma frozen_iff_approved_intro (d : Doc.t) :
  Doc.frozen d = false -> Doc.status d <> approved -> frozen_iff_approved d.
Proof. intros Hf Hs. split; intros H; [congruence | contradiction]. Qed.

Lemma updated_doc_keeps (p : UpdateEntryPayload.t) (now : datetime)
    (d : Doc.t) :
  Doc.status (updated_doc p now d) = Doc.status d
  /\ Doc.frozen (updated_doc p now d) = Doc.frozen d
  /\ Doc.comments (updated_doc p now d) = Doc.comments d.
Proof.
  destruct p as [[t|] [a|] [de|] r]; repeat split; reflexivity.
Qed.

Lemma update_entry_patched (c : gmap string Doc.t) (entry_id : string)
    (p : UpdateEntryPayload.t) (now : datetime) :
  exists c', snd (update_entry entry_id p now (Some c)) = Some c'
             /\ patched c c'.
Proof.
  destruct (ObjectIdOf.parse entry_id) as [oid|] eqn:Hp.
  - destruct (c !! oid) as [d|] eqn:Hd.
    + rewrite (update_entry_run _ _ _ _ _ _ Hp Hd).
      destruct (Doc.frozen d) eqn:Hf;
        [eexists; split; [reflexivity|constructor]|].
      destruct (status_in _ _) eqn:Hs; cbn [negb];
        [|eexists; split; [reflexivity|constructor]].
      destruct (Updates.is_empty _);
        [eexists; split; [reflexivity|constructor]|].
      eexists; split; [reflexivity|].
      apply (patched_doc _ _ d); [exact Hd | exact Hf |].
      destruct (updated_doc_keeps p now d) as (Es & Ef & _).
      apply frozen_iff_approved_intro; [congruence|].
      rewrite Es. eapply status_in_not_approved; [|exact Hs]. reflexivity.
    + exists c. split; [|constructor].
      unfold update_entry. erewrite bind_ok by reflexivity. cbn iota.
      run_step Hp. rewrite Hd. reflexivity.
  - exists c. split; [|constructor].
    unfold update_entry. erewrite bind_ok by reflexivity. cbn iota.
    erewrite bind_raise by (apply find_one_bad_id; exact Hp). reflexivity.
Qed.

Ltac store_unchanged := eexists; split; [reflexivity | constructor].

Lemma submitted_doc_fields (p : RolePayload.t) (t1 t2 : datetime)
    (d : Doc.t) :
  Doc.status (submitted_doc p t1 t2 d) = submitted_for_review
  /\ Doc.frozen (submitted_doc p t1 t2 d) = Doc.frozen d.
Proof.
  unfold submitted_doc. destruct (truthy _); split; reflexivity.
Qed.

Lemma submit_for_review_patched (c : gmap string Doc.t) (entry_id : string)
    (p : RolePayload.t) (t1 t2 : datetime) :
  exists c', snd (submit_for_review entry_id p t1 t2 (Some c)) = Some c'
             /\ patched c c'.
Proof.
  destruct (ObjectIdOf.parse entry_id) as [oid|] eqn:Hp.
  - destruct (c !! oid) as [d|] eqn:Hd.
    + rewrite (submit_for_review_run _ _ _ _ _ _ _ Hp Hd).
      destruct (Doc.frozen d) eqn:Hf; [store_unchanged|].
      destruct (negb (role_in _ _)); [store_unchanged|].
      destruct (negb (status_in _ _)); [store_unchanged|].
      eexists; split; [reflexivity|].
      destruct (submitted_doc_fields p t1 t2 d) as (Es & Ef).
      apply (patched_doc _ _ d); [exact Hd | exact Hf |].
      apply frozen_iff_approved_intro; congruence.
    + exists c. split; [|constructor].
      unfold submit_for_review. run_step Hp. rewrite Hd. reflexivity.
  - exists c. split; [|constructor].
    unfold submit_for_review.
    erewrite bind_raise by (apply find_one_bad_id; exact Hp). reflexivity.
Qed.

Lemma reviewer_action_patched (c : gmap string Doc.t) (entry_id : string)
    (p : ReviewerActionPayload.t) (t1 t2 : datetime) :
  exists c', snd (reviewer_action entry_id p t1 t2 (Some c)) = Some c'
             /\ patched c c'.
Proof.
  destruct (ObjectIdOf.parse entry_id) as [oid|] eqn:Hp.
  - destruct (c !! oid) as [d|] eqn:Hd.
    + rewrite (reviewer_action_run _ _ _ _ _ _ _ Hp Hd).
      destruct (Doc.frozen d) eqn:Hf; [store_unchanged|].
      destruct (negb (status_in _ _)); [store_unchanged|].
      eexists; split; [reflexivity|].
      apply (patched_doc _ _ d); [exact Hd | exact Hf |].
      apply frozen_iff_approved_intro; [exact Hf|].
      cbn. destruct (ReviewerActionPayload.action p); discriminate.
    + exists c. split; [|constructor].
      unfold reviewer_action. run_step Hp. rewrite Hd. reflexivity.
  - exists c. split; [|constructor].
    unfold reviewer_action.
    erewrite bind_raise by (apply find_one_bad_id; exact Hp). reflexivity.
Qed.

Lemma approver_action_patched (c : gmap string Doc.t) (entry_id : string)
    (p : ApproverActionPayload.t) (t1 t2 : datetime) :
  exists c', snd (approver_action entry_id p t1 t2 (Some c)) = Some c'
             /\ patched c c'.
Proof.
  destruct (ObjectIdOf.parse entry_id) as [oid|] eqn:Hp.
  - destruct (c !! oid) as [d|] eqn:Hd.
    + rewrite (approver_action_run _ _ _ _ _ _ _ Hp Hd).
      destruct (Doc.frozen d) eqn:Hf; [store_unchanged|].
      destruct (negb (Status_eqb _ _)); [store_unchanged|].
      eexists; split; [reflexivity|].
      apply (patched_doc _ _ d); [exact Hd | exact Hf |].
      unfold frozen_iff_approved, approved_doc.
      destruct (ApproverActionPayload.action p); cbn.
      * split; reflexivity.
      * rewrite Hf. split; discriminate.
    + exists c. split; [|constructor].
      unfold approver_action. run_step Hp. rewrite Hd. reflexivity.
  - exists c. split; [|constructor].
    unfold approver_action.
    erewrite bind_raise by (apply find_one_bad_id; exact Hp). reflexivity.
Qed.

Lemma get_entry_patched (c : gmap string Doc.t) (entry_id : string) :
  exists c', snd (get_entry entry_id (Some c)) = Some c' /\ patched c c'.
Proof.
  exists c. split; [|constructor]. unfold get_entry.
  destruct (ObjectIdOf.parse entry_id) as [oid|] eqn:Hp.
  - run_step Hp. destruct (c !! oid); reflexivity.
  - erewrite bind_raise by (apply find_one_bad_id; exact Hp). reflexivity.
Qed.

(** A creation inserts its document under a free identifier, and leaves the
    collection alone under a taken one. *)
Lemma create_entry_store (c : gmap string Doc.t) (data : AccountingEntry.t)
    (oid : string) (t1 t2 : datetime) :
  snd (create_entry data oid t1 t2 (Some c)) =
    match c !! oid with
    | None => Some (<[oid := created_doc data oid t1 t2]> c)
    | Some _ => Some c
    end.
Proof.
  unfold create_entry. erewrite bind_ok by reflexivity. cbn iota.
  destruct (c !! oid) as [d|] eqn:Hd.
  - erewrite bind_raise by (eapply create_document_taken; exact Hd).
    reflexivity.
  - erewrite bind_ok by (apply create_document_run; exact Hd).
    erewrite bind_ok by reflexivity.
    destruct (ObjectIdOf.parse oid); reflexivity.
Qed.

Lemma exec_not_create (op : Op) (c : gmap string Doc.t) :
  (forall body oid t1 t2, op <> Create body oid t1 t2) ->
  exists c', exec op (Some c) = Some c' /\ patched c c'.
Proof.
  intros Hop. unfold exec. destruct op; cbn [handle].
  - exfalso. eapply Hop. reflexivity.
  - apply update_entry_patched.
  - apply submit_for_review_patched.
  - apply reviewer_action_patched.
  - apply approver_action_patched.
  - apply get_entry_patched.
Qed.

Lemma patched_keeps_frozen (c c' : gmap string Doc.t) (oid : string)
    (d : Doc.t) :
  patched c c' -> c !! oid = Some d -> Doc.frozen d = true ->
  c' !! oid = Some d.
Proof.
  intros [|oid0 d0 d0' H0 Hf0 _] Hd Hf; [exact Hd|].
  destruct (decide (oid0 = oid)) as [->|Hne].
  - congruence.
  - rewrite lookup_insert_ne by exact Hne. exact Hd.
Qed.

Lemma patched_keeps_invariant (c c' : gmap string Doc.t) :
  patched c c' ->
  (forall oid d, c !! oid = Some d -> frozen_iff_approved d) ->
  forall oid d, c' !! oid = Some d -> frozen_iff_approved d.
Proof.
  intros [|oid0 d0 d0' H0 Hf0 Hi0] Hall oid d Hd; [eauto|].
  destruct (decide (oid0 = oid)) as [->|Hne].
  - rewrite lookup_insert_eq in Hd. congruence.
  - rewrite lookup_insert_ne in Hd by exact Hne. eauto.
Qed.

(** A frozen document survives any one request, untouched. *)
Lemma exec_keeps_frozen (op : Op) (c : gmap string Doc.t) (oid : string)
    (d : Doc.t) :
  c !! oid = Some d -> Doc.frozen d = true ->
  exists c', exec op (Some c) = Some c' /\ c' !! oid = Some d.
Proof.
  intros Hd Hf.
  destruct op as [body oid0 t1 t2| | | | |].
  1: {
    unfold exec; cbn [handle]. rewrite create_entry_store.
    destruct (c !! oid0) eqn:H0; eexists; (split; [reflexivity|]);
      [exact Hd|].
    rewrite lookup_insert_ne; [exact Hd | congruence]. }
  all: match goal with
       | |- exists c', exec ?op _ = _ /\ _ =>
           destruct (exec_not_create op c ltac:(discriminate)) as (c' & E & P)
       end;
    exists c'; split; [exact E | eapply patched_keeps_frozen; eauto].
Qed.

(** ... and any sequence of requests. *)
Lemma exec_all_keeps_frozen (ops : list Op) (c : gmap string Doc.t)
    (oid : string) (d : Doc.t) :
  c !! oid = Some d -> Doc.frozen d = true ->
  exists c', exec_all ops (Some c) = Some c' /\ c' !! oid = Some d.
Proof.
  revert c. induction ops as [|op ops IH]; intros c Hd Hf.
  - exists c. split; [reflexivity | exact Hd].
  - destruct (exec_keeps_frozen op c oid d Hd Hf) as (c1 & E1 & H1).
    destruct (IH c1 H1 Hf) as (c2 & E2 & H2).
    exists c2. split; [|exact H2]. cbn. rewrite E1. exact E2.
Qed.

Lemma exec_keeps_invariant (op : Op) (c : gmap string Doc.t) :
  agreeing_creation op ->
  (forall oid d, c !! oid = Some d -> frozen_iff_approved d) ->
  exists c', exec op (Some c) = Some c'
             /\ forall oid d, c' !! oid = Some d -> frozen_iff_approved d.
Proof.
  intros Hop Hall.
  destruct op as [body oid0 t1 t2| | | | |].
  1: {
    unfold exec; cbn [handle]. rewrite create_entry_store.
    destruct (c !! oid0) eqn:H0; eexists; (split; [reflexivity|]);
      [exact Hall|].
    intros oid d Hd. destruct (decide (oid0 = oid)) as [->|Hne].
    - rewrite lookup_insert_eq in Hd. injection Hd as <-. exact Hop.
    - rewrite lookup_insert_ne in Hd by exact Hne. eauto. }
  all: match goal with
       | |- exists c', exec ?op _ = _ /\ _ =>
           destruct (exec_not_create op c ltac:(discriminate)) as (c' & E & P)
       end;
    exists c'; split; [exact E | eapply patched_keeps_invariant; eauto].
Qed.

Lemma exec_all_keeps_invariant (ops : list Op) (c : gmap string Doc.t) :
  Forall agreeing_creation ops ->
  (forall oid d, c !! oid = Some d -> frozen_iff_approved d) ->
  exists c', exec_all ops (Some c) = Some c'
             /\ forall oid d, c' !! oid = Some d -> frozen_iff_approved d.
Proof.
  revert c. induction ops as [|op ops IH]; intros c Hops Hall.
  - exists c. split; [reflexivity | exact Hall].
  - inversion Hops as [|? ? Hop Hops']; subst.
    destruct (exec_keeps_invariant op c Hop Hall) as (c1 & E1 & H1).
    destruct (IH c1 Hops' H1) as (c2 & E2 & H2).
    exists c2. split; [|exact H2]. cbn. rewrite E1. exact E2.
Qed.

(** ** Creation *)

(** C1, as stated, fails: a creation whose body carries [status] and
    [frozen] returns and stores them; it does not force the defaults. *)
Lemma create_entry_keeps_supplied_status :
  let body :=
    AccountingEntry.mk_body "Rent" 500%float None
      (Some approved) None (Some true) in
  let oid := "65a1b2c3d4e5f60718293a4b" in
  create_entry (AccountingEntry.validate body) oid 1 2 (Some ∅)
  = (Ok (Some (Entry.mk oid "Rent" 500%float None approved [] true
                 (isoformat 1) (isoformat 2))),
     Some {[oid := Doc.mk oid "Rent" 500%float None approved [] true 1 2]})
  /\ ~ creation_forces_defaults.
Proof.
  intros body oid.
  assert (Hrun :
    create_entry (AccountingEntry.validate body) oid 1 2 (Some ∅)
    = (Ok (Some (Entry.mk oid "Rent" 500%float None approved [] true
                   (isoformat 1) (isoformat 2))),
       Some {[oid := Doc.mk oid "Rent" 500%float None approved [] true
                       1 2]})).
  { rewrite (create_entry_run ∅ (AccountingEntry.validate body) oid 1 2
               (lookup_empty _) eq_refl).
    reflexivity. }
  split; [exact Hrun|].
  intros H. destruct (H _ _ _ _ _ _ _ Hrun) as (Hs & _).
  discriminate Hs.
Qed.

(** C1, amended: for every Create call on a configured database, with a
    free, canonical generated identifier, the entry is returned and stored
    with the supplied title, amount and optional description, and with the
    status, comments and frozen flag of the body where the body carries
    them, and [draft], the empty list and [false] where it does not. *)
Theorem create_entry_keeps_body (body : AccountingEntry.body)
    (oid : string) (t_created t_updated : datetime)
    (c : gmap string Doc.t) :
  c !! oid = None ->
  canonical oid ->
  exists (e : Entry.t) (d : Doc.t),
    create_entry (AccountingEntry.validate body) oid t_created t_updated
      (Some c) = (Ok (Some e), Some (<[oid := d]> c))
    /\ serialize (Some d) = Some e
    /\ Entry.title e = AccountingEntry.b_title body
    /\ Entry.amount e = AccountingEntry.b_amount body
    /\ Entry.description e = AccountingEntry.b_description body
    /\ Entry.status e = default draft (AccountingEntry.b_status body)
    /\ Entry.comments e
       = map serialize_comment (default [] (AccountingEntry.b_comments body))
    /\ Entry.frozen e = default false (AccountingEntry.b_frozen body)
    /\ (AccountingEntry.b_status body = None -> Entry.status e = draft)
    /\ (AccountingEntry.b_comments body = None -> Entry.comments e = [])
    /\ (AccountingEntry.b_frozen body = None -> Entry.frozen e = false).
Proof.
  intros Hn Hc.
  pose proof (create_entry_run c (AccountingEntry.validate body) oid
                t_created t_updated Hn Hc) as Hrun.
  cbn [serialize] in Hrun.
  eexists; eexists; split; [exact Hrun|].
  cbn. repeat split; try reflexivity; intros ->; reflexivity.
Qed.

Lemma create_entry_keeps_body_witness :
  exists (e : Entry.t) (d : Doc.t),
    create_entry
      (AccountingEntry.validate
         (AccountingEntry.mk_body "Rent" 500%float None None None None))
      "65a1b2c3d4e5f60718293a4b" 1 2 (Some ∅)
      = (Ok (Some e), Some (<["65a1b2c3d4e5f60718293a4b" := d]> ∅))
    /\ Entry.status e = draft /\ Entry.comments e = []
    /\ Entry.frozen e = false.
Proof.
  destruct (create_entry_keeps_body
              (AccountingEntry.mk_body "Rent" 500%float None None None None)
              "65a1b2c3d4e5f60718293a4b" 1 2 ∅ (lookup_empty _) eq_refl)
    as (e & d & Hrun & _ & _ & _ & _ & _ & _ & _ & Hs & Hcs & Hf).
  exists e, d. repeat split; auto.
Defined.

(** ** The frozen flag *)

(** C2, as stated, fails: a creation can store an entry that is frozen and
    still a draft. *)
Lemma frozen_draft_reachable :
  let body :=
    AccountingEntry.mk_body "Rent" 500%float None None None (Some true) in
  let oid := "65a1b2c3d4e5f60718293a4b" in
  let d := Doc.mk oid "Rent" 500%float None draft [] true 1 2 in
  exec_all [Create body oid 1 2] (Some ∅) = Some {[oid := d]}
  /\ Doc.frozen d = true
  /\ Doc.status d = draft
  /\ ~ frozen_iff_approved_always.
Proof.
  intros body oid d.
  assert (Hrun : exec_all [Create body oid 1 2] (Some ∅)
                 = Some {[oid := d]}).
  { unfold exec_all, exec; cbn [fold_left handle].
    rewrite create_entry_store, lookup_empty. reflexivity. }
  split; [exact Hrun|]. split; [reflexivity|]. split; [reflexivity|].
  intros H.
  destruct (H _ _ oid d Hrun (lookup_singleton_eq _ _)) as [Hfa _].
  specialize (Hfa eq_refl). discriminate Hfa.
Qed.

(** C2, amended: over every sequence of requests from the empty collection
    whose creations agree on [frozen] and [status] (as every creation does
    that supplies neither), an entry is frozen if and only if it is
    approved; and a frozen entry of the store is left as it is, field for
    field, by every further sequence of requests, creations unrestricted. *)
Theorem frozen_iff_approved_reachable (ops : list Op)
    (c : gmap string Doc.t) (oid : string) (d : Doc.t) :
  Forall agreeing_creation ops ->
  exec_all ops (Some ∅) = Some c ->
  c !! oid = Some d ->
  frozen_iff_approved d
  /\ (Doc.frozen d = true ->
      forall ops' : list Op,
      exists c', exec_all ops' (Some c) = Some c' /\ c' !! oid = Some d).
Proof.
  intros Hops Hrun Hd. split.
  - destruct (exec_all_keeps_invariant ops ∅ Hops) as (c' & E & Hall).
    + intros ? ? Habs. rewrite lookup_empty in Habs. discriminate.
    + rewrite Hrun in E. injection E as <-. eauto.
  - intros Hf ops'. apply exec_all_keeps_frozen; assumption.
Qed.

Lemma frozen_iff_approved_reachable_witness :
  let oid := "65a1b2c3d4e5f60718293a4b" in
  let ops :=
    [Create (AccountingEntry.mk_body "Rent" 500%float None None None None)
       oid 1 2;
     Submit oid (RolePayload.mk creator None) 3 4;
     Review oid (ReviewerActionPayload.mk rv_reviewer mark_reviewed None) 5 6;
     Approve oid (ApproverActionPayload.mk ap_approver approve None) 7 8] in
  let d :=
    Doc.mk oid "Rent" 500%float None approved
      [Comment.mk c_reviewer "Marked as reviewed" 6;
       Comment.mk c_approver "Approved" 8]
      true 1 7 in
  Forall agreeing_creation ops
  /\ exec_all ops (Some ∅) = Some {[oid := d]}
  /\ frozen_iff_approved d
  /\ forall ops' : list Op,
     exists c', exec_all ops' (Some {[oid := d]}) = Some c'
                /\ c' !! oid = Some d.
Proof.
  intros oid ops d.
  assert (Hops : Forall agreeing_creation ops).
  { repeat constructor; cbn; discriminate. }
  assert (Hrun : exec_all ops (Some ∅) = Some {[oid := d]}).
  { vm_compute. reflexivity. }
  assert (Hd : ({[oid := d]} : gmap string Doc.t) !! oid = Some d).
  { apply lookup_singleton_eq. }
  destruct (frozen_iff_approved_reachable ops {[oid := d]} oid d
              Hops Hrun Hd) as (Hi & Hk).
  split; [exact Hops|]. split; [exact Hrun|]. split; [exact Hi|].
  exact (Hk eq_refl).
Defined.

(** C3: on a frozen entry, each of the four mutating handlers raises its
    frozen rejection (status 400) and leaves the store as it is, whatever
    the payload, the declared role and the entry's status: the frozen check
    comes before the role and state checks, so neither the state rejection
    nor the role rejection is ever reported. *)
Theorem frozen_entry_rejects_every_mutation (c : gmap string Doc.t)
    (entry_id oid : string) (d : Doc.t) :
  ObjectIdOf.parse entry_id = Some oid ->
  c !! oid = Some d ->
  Doc.frozen d = true ->
  (forall p now,
      update_entry entry_id p now (Some c)
      = (Raise (HTTPException 400 "Entry is frozen and cannot be updated"),
         Some c))
  /\ (forall p t1 t2,
         submit_for_review entry_id p t1 t2 (Some c)
         = (Raise (HTTPException 400 "Entry is frozen"), Some c))
  /\ (forall p t1 t2,
         reviewer_action entry_id p t1 t2 (Some c)
         = (Raise (HTTPException 400 "Entry is frozen"), Some c))
  /\ (forall p t1 t2,
         approver_action entry_id p t1 t2 (Some c)
         = (Raise (HTTPException 400 "Entry is frozen"), Some c))
  /\ error_kind (HTTPException 400 "Entry is frozen and cannot be updated")
     = Some Frozen
  /\ error_kind (HTTPException 400 "Entry is frozen") = Some Frozen.
Proof.
  intros Hp Hd Hf. repeat split; intros.
  - rewrite (update_entry_run _ _ _ _ _ _ Hp Hd), Hf. reflexivity.
  - rewrite (submit_for_review_run _ _ _ _ _ _ _ Hp Hd), Hf. reflexivity.
  - rewrite (reviewer_action_run _ _ _ _ _ _ _ Hp Hd), Hf. reflexivity.
  - rewrite (approver_action_run _ _ _ _ _ _ _ Hp Hd), Hf. reflexivity.
Qed.

Lemma frozen_entry_rejects_every_mutation_witness :
  let oid := "65a1b2c3d4e5f60718293a4b" in
  let d := Doc.mk oid "Rent" 500%float None approved [] true 1 7 in
  submit_for_review oid (RolePayload.mk reviewer None) 8 9
    (Some {[oid := d]})
  = (Raise (HTTPException 400 "Entry is frozen"), Some {[oid := d]}).
Proof.
  intros oid d.
  apply (frozen_entry_rejects_every_mutation {[oid := d]} oid oid d);
    [reflexivity | apply lookup_singleton_eq | reflexivity].
Defined.

(** ** Successful transitions *)

Lemma submit_for_review_ok (c : gmap string Doc.t) (entry_id oid : string)
    (d : Doc.t) (p : RolePayload.t) (t1 t2 : datetime) :
  ObjectIdOf.parse entry_id = Some oid ->
  c !! oid = Some d ->
  Doc.frozen d = false ->
  role_in (RolePayload.role p) ["creator"; "blackadam"] = true ->
  status_in (Doc.status d) [draft; reentry_requested] = true ->
  submit_for_review entry_id p t1 t2 (Some c)
  = (Ok (serialize (Some (submitted_doc p t1 t2 d))),
     Some (<[oid := submitted_doc p t1 t2 d]> c)).
Proof.
  intros Hp Hd Hf Hr Hs.
  rewrite (submit_for_review_run _ _ _ _ _ _ _ Hp Hd), Hf, Hr, Hs.
  reflexivity.
Qed.

Lemma reviewer_action_ok (c : gmap string Doc.t) (entry_id oid : string)
    (d : Doc.t) (p : ReviewerActionPayload.t) (t1 t2 : datetime) :
  ObjectIdOf.parse entry_id = Some oid ->
  c !! oid = Some d ->
  Doc.frozen d = false ->
  status_in (Doc.status d) [submitted_for_review; recheck_requested] = true ->
  reviewer_action entry_id p t1 t2 (Some c)
  = (Ok (serialize (Some (reviewed_doc p t1 t2 d))),
     Some (<[oid := reviewed_doc p t1 t2 d]> c)).
Proof.
  intros Hp Hd Hf Hs.
  rewrite (reviewer_action_run _ _ _ _ _ _ _ Hp Hd), Hf, Hs. reflexivity.
Qed.

Lemma approver_action_ok (c : gmap string Doc.t) (entry_id oid : string)
    (d : Doc.t) (p : ApproverActionPayload.t) (t1 t2 : datetime) :
  ObjectIdOf.parse entry_id = Some oid ->
  c !! oid = Some d ->
  Doc.frozen d = false ->
  Doc.status d = reviewed ->
  approver_action entry_id p t1 t2 (Some c)
  = (Ok (serialize (Some (approved_doc p t1 t2 d))),
     Some (<[oid := approved_doc p t1 t2 d]> c)).
Proof.
  intros Hp Hd Hf Hs.
  rewrite (approver_action_run _ _ _ _ _ _ _ Hp Hd), Hf, Hs. reflexivity.
Qed.

(** C4: create an entry from a title and an amount alone, submit it as
    creator without comment, mark it reviewed as reviewer, approve it as
    approver, fetch it: the entry fetched is approved and frozen, and its
    comments are the reviewer's "Marked as reviewed" followed by the
    approver's "Approved", and nothing else. The claim's scenario is the
    instance with title "Rent" and amount 500. *)
Theorem approval_scenario_result (title : string) (amount : float)
    (oid : string) (t1 t2 t3 t4 t5 t6 t7 t8 : datetime)
    (c : gmap string Doc.t) :
  c !! oid = None ->
  canonical oid ->
  exists (e : Entry.t) (db' : Database),
    approval_scenario title amount oid t1 t2 t3 t4 t5 t6 t7 t8 (Some c)
    = (Ok (Some e), db')
    /\ Entry.id e = oid
    /\ Entry.title e = title
    /\ Entry.amount e = amount
    /\ Entry.status e = approved
    /\ Entry.frozen e = true
    /\ Entry.comments e
       = [Entry.mk_comment c_reviewer "Marked as reviewed" (isoformat t6);
          Entry.mk_comment c_approver "Approved" (isoformat t8)].
Proof.
  intros Hn Hc. unfold approval_scenario.
  erewrite bind_ok by (apply create_entry_run; [exact Hn | exact Hc]).
  cbn [from_option serialize Entry.id Doc._id created_doc].
  erewrite bind_ok by
    (eapply submit_for_review_ok;
     [exact Hc | apply lookup_insert_eq | reflexivity ..]).
  erewrite bind_ok by
    (eapply reviewer_action_ok;
     [exact Hc | apply lookup_insert_eq | reflexivity ..]).
  erewrite bind_ok by
    (eapply approver_action_ok;
     [exact Hc | apply lookup_insert_eq | reflexivity ..]).
  erewrite get_entry_run by (first [exact Hc | apply lookup_insert_eq]).
  eexists; eexists; split; [reflexivity|].
  repeat split; reflexivity.
Qed.

Lemma approval_scenario_result_witness :
  exists (e : Entry.t) (db' : Database),
    approval_scenario "Rent" 500%float "65a1b2c3d4e5f60718293a4b"
      1 2 3 4 5 6 7 8 (Some ∅)
    = (Ok (Some e), db')
    /\ Entry.status e = approved
    /\ Entry.frozen e = true
    /\ Entry.comments e
       = [Entry.mk_comment c_reviewer "Marked as reviewed" (isoformat 6);
          Entry.mk_comment c_approver "Approved" (isoformat 8)].
Proof.
  destruct (approval_scenario_result "Rent" 500%float
              "65a1b2c3d4e5f60718293a4b" 1 2 3 4 5 6 7 8 ∅
              (lookup_empty _) eq_refl)
    as (e & db' & Hrun & _ & _ & _ & Hs & Hf & Hcs).
  exists e, db'. repeat split; assumption.
Defined.

(** ** Comments *)

(** C5: whenever submit, review or approve succeeds on an entry, whatever
    role authorised the call ([blackadam] included), the stored comments are
    the old ones followed by at most one new comment for a submission, and
    by exactly one for a reviewer or approver action, and that comment's
    role is [creator], [reviewer] and [approver] respectively; no comment
    role is the superuser's literal. *)
Theorem comment_role_is_workflow_role (c : gmap string Doc.t)
    (entry_id oid : string) (d : Doc.t) :
  ObjectIdOf.parse entry_id = Some oid ->
  c !! oid = Some d ->
  (forall p t1 t2 r db',
      submit_for_review entry_id p t1 t2 (Some c) = (Ok r, db') ->
      exists d',
        db' = Some (<[oid := d']> c) /\ r = serialize (Some d')
        /\ (Doc.comments d' = Doc.comments d
            \/ exists m,
                 Doc.comments d'
                 = Doc.comments d ++ [Comment.mk c_creator m t2]))
  /\ (forall p t1 t2 r db',
         reviewer_action entry_id p t1 t2 (Some c) = (Ok r, db') ->
         exists d' m,
           db' = Some (<[oid := d']> c) /\ r = serialize (Some d')
           /\ Doc.comments d'
              = Doc.comments d ++ [Comment.mk c_reviewer m t2])
  /\ (forall p t1 t2 r db',
         approver_action entry_id p t1 t2 (Some c) = (Ok r, db') ->
         exists d' m,
           db' = Some (<[oid := d']> c) /\ r = serialize (Some d')
           /\ Doc.comments d'
              = Doc.comments d ++ [Comment.mk c_approver m t2])
  /\ (forall r : CommentRole, CommentRole_str r <> Role_str blackadam).
Proof.
  intros Hp Hd. split; [|split; [|split]].
  - intros p t1 t2 r db'.
    rewrite (submit_for_review_run _ _ _ _ _ _ _ Hp Hd).
    destruct (Doc.frozen d); [discriminate|].
    destruct (negb (role_in _ _)); [discriminate|].
    destruct (negb (status_in _ _)); [discriminate|].
    intros [= <- <-]. eexists. split; [reflexivity|]. split; [reflexivity|].
    unfold submitted_doc. destruct (truthy _); cbn; eauto.
  - intros p t1 t2 r db'.
    rewrite (reviewer_action_run _ _ _ _ _ _ _ Hp Hd).
    destruct (Doc.frozen d); [discriminate|].
    destruct (negb (status_in _ _)); [discriminate|].
    intros [= <- <-]. eexists; eexists.
    split; [reflexivity|]. split; reflexivity.
  - intros p t1 t2 r db'.
    rewrite (approver_action_run _ _ _ _ _ _ _ Hp Hd).
    destruct (Doc.frozen d); [discriminate|].
    destruct (negb (Status_eqb _ _)); [discriminate|].
    intros [= <- <-]. eexists; eexists.
    split; [reflexivity|]. split; reflexivity.
  - intros []; discriminate.
Qed.

Lemma comment_role_is_workflow_role_witness :
  let oid := "65a1b2c3d4e5f60718293a4b" in
  let d := Doc.mk oid "Rent" 500%float None reviewed [] false 1 5 in
  exists d' m,
    snd (approver_action oid
           (ApproverActionPayload.mk ap_blackadam approve (Some "fine"))
           7 8 (Some {[oid := d]}))
    = Some (<[oid := d']> {[oid := d]})
    /\ Doc.comments d' = Doc.comments d ++ [Comment.mk c_approver m 8].
Proof.
  intros oid d.
  destruct (comment_role_is_workflow_role {[oid := d]} oid oid d
              eq_refl (lookup_singleton_eq _ _))
    as (_ & _ & Ha & _).
  destruct (Ha (ApproverActionPayload.mk ap_blackadam approve (Some "fine"))
              7 8 _ _
              (approver_action_ok {[oid := d]} oid oid d _ 7 8 eq_refl
                 (lookup_singleton_eq _ _) eq_refl eq_refl))
    as (d' & m & Hdb & _ & Hcs).
  exists d', m. split; [|exact Hcs].
  rewrite (approver_action_ok {[oid := d]} oid oid d _ 7 8 eq_refl
             (lookup_singleton_eq _ _) eq_refl eq_refl).
  exact Hdb.
Defined.

(** C6: two [update_entry] calls whose payloads carry the same title,
    amount and description have the same outcome on every database,
    whatever the two declared roles: same response or same exception, same
    store. The handler never reads the role. *)
Theorem update_entry_ignores_role (entry_id : string)
    (p1 p2 : UpdateEntryPayload.t) (now : datetime) (db : Database) :
  UpdateEntryPayload.title p1 = UpdateEntryPayload.title p2 ->
  UpdateEntryPayload.amount p1 = UpdateEntryPayload.amount p2 ->
  UpdateEntryPayload.description p1 = UpdateEntryPayload.description p2 ->
  update_entry entry_id p1 now db = update_entry entry_id p2 now db.
Proof.
  destruct p1 as [title1 amount1 description1 role1].
  destruct p2 as [title2 amount2 description2 role2].
  cbn [UpdateEntryPayload.title UpdateEntryPayload.amount
       UpdateEntryPayload.description].
  intros -> -> ->. reflexivity.
Qed.

Lemma update_entry_ignores_role_witness :
  let oid := "65a1b2c3d4e5f60718293a4b" in
  let d := Doc.mk oid "Rent" 500%float None draft [] false 1 2 in
  update_entry oid
    (UpdateEntryPayload.mk (Some "Rent, May") None None creator) 9
    (Some {[oid := d]})
  = update_entry oid
      (UpdateEntryPayload.mk (Some "Rent, May") None None approver) 9
      (Some {[oid := d]}).
Proof.
  intros oid d.
  apply (update_entry_ignores_role oid
           (UpdateEntryPayload.mk (Some "Rent, May") None None creator)
           (UpdateEntryPayload.mk (Some "Rent, May") None None approver)
           9 (Some {[oid := d]}));
    reflexivity.
Defined.

(** C7: on an unfrozen entry in status [reviewed], an approver's
    [request_rereview] succeeds: the entry is stored with status
    [recheck_requested], [frozen] still false, and one more approver
    comment, whose message is the supplied comment or, with no comment
    supplied, "Re-review requested"; nothing else of it changes but
    [updated_at]. On the resulting store a reviewer's [mark_reviewed]
    succeeds: it stores the entry with status [reviewed] and one more
    reviewer comment, and returns it. *)
Theorem rereview_then_mark_reviewed (c : gmap string Doc.t)
    (entry_id oid : string) (d : Doc.t) (role : ApproverRole)
    (comment : option string) (t1 t2 : datetime) :
  ObjectIdOf.parse entry_id = Some oid ->
  c !! oid = Some d ->
  Doc.status d = reviewed ->
  Doc.frozen d = false ->
  exists (e1 : Entry.t) (d1 : Doc.t),
    approver_action entry_id
      (ApproverActionPayload.mk role request_rereview comment) t1 t2 (Some c)
    = (Ok (Some e1), Some (<[oid := d1]> c))
    /\ serialize (Some d1) = Some e1
    /\ Entry.status e1 = recheck_requested
    /\ Entry.frozen e1 = false
    /\ Doc.comments d1
       = Doc.comments d
         ++ [Comment.mk c_approver (str_or comment "Re-review requested") t2]
    /\ (comment = None ->
        Doc.comments d1
        = Doc.comments d
          ++ [Comment.mk c_approver "Re-review requested" t2])
    /\ d1
       = Doc.mk (Doc._id d) (Doc.title d) (Doc.amount d) (Doc.description d)
           recheck_requested
           (Doc.comments d
            ++ [Comment.mk c_approver
                  (str_or comment "Re-review requested") t2])
           false (Doc.created_at d) t1
    /\ forall (role' : ReviewerRole) (comment' : option string)
              (t3 t4 : datetime),
       exists (e2 : Entry.t) (d2 : Doc.t),
         reviewer_action entry_id
           (ReviewerActionPayload.mk role' mark_reviewed comment') t3 t4
           (Some (<[oid := d1]> c))
         = (Ok (Some e2), Some (<[oid := d2]> c))
         /\ serialize (Some d2) = Some e2
         /\ Entry.status e2 = reviewed
         /\ d2
            = Doc.mk (Doc._id d) (Doc.title d) (Doc.amount d)
                (Doc.description d) reviewed
                (Doc.comments d1
                 ++ [Comment.mk c_reviewer
                       (str_or comment' "Marked as reviewed") t4])
                false (Doc.created_at d) t3
         /\ get_entry entry_id (Some (<[oid := d2]> c))
            = (Ok (Some e2), Some (<[oid := d2]> c)).
Proof.
  intros Hp Hd Hs Hf.
  eexists; eexists. split.
  { rewrite (approver_action_ok _ _ _ _ _ _ _ Hp Hd Hf Hs). reflexivity. }
  split; [reflexivity|]. split; [reflexivity|].
  split; [cbn; exact Hf|]. split; [reflexivity|].
  split; [intros ->; reflexivity|].
  split.
  { unfold approved_doc, Updates.apply, push_comment. cbn.
    rewrite Hf. reflexivity. }
  intros role' comment' t3 t4. eexists; eexists. split.
  { erewrite reviewer_action_ok;
      [ rewrite insert_insert_eq; reflexivity | exact Hp
      | apply lookup_insert_eq | cbn; exact Hf | reflexivity ]. }
  split; [reflexivity|]. split; [reflexivity|]. split.
  { unfold reviewed_doc, approved_doc, Updates.apply, push_comment. cbn.
    rewrite Hf. reflexivity. }
  apply (get_entry_run _ _ oid); [exact Hp | apply lookup_insert_eq].
Qed.

Lemma rereview_then_mark_reviewed_witness :
  let oid := "65a1b2c3d4e5f60718293a4b" in
  let d := Doc.mk oid "Rent" 500%float None reviewed [] false 1 5 in
  exists (e1 : Entry.t) (d1 : Doc.t),
    approver_action oid
      (ApproverActionPayload.mk ap_approver request_rereview None) 7 8
      (Some {[oid := d]})
    = (Ok (Some e1), Some (<[oid := d1]> {[oid := d]}))
    /\ Entry.status e1 = recheck_requested
    /\ Doc.comments d1 = [Comment.mk c_approver "Re-review requested" 8].
Proof.
  intros oid d.
  destruct (rereview_then_mark_reviewed {[oid := d]} oid oid d ap_approver
              None 7 8 eq_refl (lookup_singleton_eq _ _) eq_refl eq_refl)
    as (e1 & d1 & Hrun & _ & Hs & _ & _ & Hcs & _ & _).
  exists e1, d1. split; [exact Hrun|]. split; [exact Hs|].
  exact (Hcs eq_refl).
Defined.

(** C8: on an unfrozen draft, [submit_for_review] with declared role
    [reviewer] or [approver] raises the 403 rejection and leaves the store
    as it is; with [creator] or [blackadam] it succeeds. *)
Theorem submit_requires_creator_or_superuser (c : gmap string Doc.t)
    (entry_id oid : string) (d : Doc.t) (p : RolePayload.t)
    (t1 t2 : datetime) :
  ObjectIdOf.parse entry_id = Some oid ->
  c !! oid = Some d ->
  Doc.status d = draft ->
  Doc.frozen d = false ->
  (RolePayload.role p = reviewer \/ RolePayload.role p = approver ->
   submit_for_review entry_id p t1 t2 (Some c)
   = (Raise (HTTPException 403 "Only creator can submit for review"),
      Some c))
  /\ (RolePayload.role p = creator \/ RolePayload.role p = blackadam ->
      exists (e : Entry.t) (db' : Database),
        submit_for_review entry_id p t1 t2 (Some c) = (Ok (Some e), db')
        /\ Entry.status e = submitted_for_review)
  /\ error_kind (HTTPException 403 "Only creator can submit for review")
     = Some Forbidden
  /\ response_status
       (HTTPException 403 "Only creator can submit for review") = 403.
Proof.
  intros Hp Hd Hs Hf.
  rewrite (submit_for_review_run _ _ _ _ _ _ _ Hp Hd), Hf, Hs.
  split; [|split; [|split; reflexivity]].
  - intros [-> | ->]; reflexivity.
  - intros [-> | ->]; cbn [role_in Role_str existsb String.eqb negb orb];
      eexists; eexists; (split; [reflexivity|]);
      apply (submitted_doc_fields p t1 t2 d).
Qed.

Lemma submit_requires_creator_or_superuser_witness :
  let oid := "65a1b2c3d4e5f60718293a4b" in
  let d := Doc.mk oid "Rent" 500%float None draft [] false 1 2 in
  submit_for_review oid (RolePayload.mk reviewer None) 3 4
    (Some {[oid := d]})
  = (Raise (HTTPException 403 "Only creator can submit for review"),
     Some {[oid := d]}).
Proof.
  intros oid d.
  apply (submit_requires_creator_or_superuser {[oid := d]} oid oid d
           (RolePayload.mk reviewer None) 3 4 eq_refl
           (lookup_singleton_eq _ _) eq_refl eq_refl).
  left. reflexivity.
Defined.

(** ** Field updates *)

(** C9: on an unfrozen entry in [draft] or [reentry_requested],
    [update_entry] with neither title nor amount nor description succeeds,
    returns the stored entry as it is ([updated_at] included) and leaves the
    store as it is: nothing is written. *)
Theorem update_entry_without_fields (c : gmap string Doc.t)
    (entry_id oid : string) (d : Doc.t) (role : Role) (now : datetime) :
  ObjectIdOf.parse entry_id = Some oid ->
  c !! oid = Some d ->
  Doc.frozen d = false ->
  Doc.status d = draft \/ Doc.status d = reentry_requested ->
  update_entry entry_id (UpdateEntryPayload.mk None None None role) now
    (Some c)
  = (Ok (serialize (Some d)), Some c)
  /\ get_entry entry_id (Some c) = (Ok (serialize (Some d)), Some c).
Proof.
  intros Hp Hd Hf Hs. split.
  - rewrite (update_entry_run _ _ _ _ _ _ Hp Hd), Hf.
    destruct Hs as [-> | ->]; reflexivity.
  - exact (get_entry_run _ _ _ _ Hp Hd).
Qed.

Lemma update_entry_without_fields_witness :
  let oid := "65a1b2c3d4e5f60718293a4b" in
  let d := Doc.mk oid "Rent" 500%float None draft [] false 1 2 in
  update_entry oid (UpdateEntryPayload.mk None None None approver) 9
    (Some {[oid := d]})
  = (Ok (serialize (Some d)), Some {[oid := d]}).
Proof.
  intros oid d.
  apply (update_entry_without_fields {[oid := d]} oid oid d approver 9
           eq_refl (lookup_singleton_eq _ _) eq_refl).
  left. reflexivity.
Defined.

(** ** Empty comments *)

(** C10: a submission whose comment is the empty string behaves as one with
    no comment, on every database, and where it succeeds the stored comments
    are the old ones; a reviewer or approver action whose comment is the
    empty string, where it succeeds (unfrozen entry in an allowed status),
    appends one comment that carries the action's default message. *)
Theorem empty_comment_is_no_comment (c : gmap string Doc.t)
    (entry_id oid : string) (d : Doc.t) (t1 t2 : datetime) :
  ObjectIdOf.parse entry_id = Some oid ->
  c !! oid = Some d ->
  Doc.frozen d = false ->
  (forall (role : Role) (db : Database),
      submit_for_review entry_id (RolePayload.mk role (Some EmptyString))
        t1 t2 db
      = submit_for_review entry_id (RolePayload.mk role None) t1 t2 db)
  /\ (forall role : Role,
         role_in role ["creator"; "blackadam"] = true ->
         status_in (Doc.status d) [draft; reentry_requested] = true ->
         exists d',
           submit_for_review entry_id
             (RolePayload.mk role (Some EmptyString)) t1 t2 (Some c)
           = (Ok (serialize (Some d')), Some (<[oid := d']> c))
           /\ Doc.comments d' = Doc.comments d)
  /\ (forall (role : ReviewerRole) (action : ReviewerAction),
         status_in (Doc.status d) [submitted_for_review; recheck_requested]
         = true ->
         exists d',
           reviewer_action entry_id
             (ReviewerActionPayload.mk role action (Some EmptyString))
             t1 t2 (Some c)
           = (Ok (serialize (Some d')), Some (<[oid := d']> c))
           /\ Doc.comments d'
              = Doc.comments d
                ++ [Comment.mk c_reviewer (reviewer_default_msg action) t2])
  /\ (forall (role : ApproverRole) (action : ApproverAction),
         Doc.status d = reviewed ->
         exists d',
           approver_action entry_id
             (ApproverActionPayload.mk role action (Some EmptyString))
             t1 t2 (Some c)
           = (Ok (serialize (Some d')), Some (<[oid := d']> c))
           /\ Doc.comments d'
              = Doc.comments d
                ++ [Comment.mk c_approver (approver_default_msg action) t2]).
Proof.
  intros Hp Hd Hf. split; [|split; [|split]].
  - reflexivity.
  - intros role Hr Hs. eexists. split.
    + exact (submit_for_review_ok _ _ _ _
               (RolePayload.mk role (Some EmptyString))
               _ _ Hp Hd Hf Hr Hs).
    + reflexivity.
  - intros role action Hs. eexists. split.
    + exact (reviewer_action_ok _ _ _ _
               (ReviewerActionPayload.mk role action (Some EmptyString))
               _ _ Hp Hd Hf Hs).
    + destruct action; reflexivity.
  - intros role action Hs. eexists. split.
    + exact (approver_action_ok _ _ _ _
               (ApproverActionPayload.mk role action (Some EmptyString))
               _ _ Hp Hd Hf Hs).
    + destruct action; reflexivity.
Qed.

Lemma empty_comment_is_no_comment_witness :
  let oid := "65a1b2c3d4e5f60718293a4b" in
  let d := Doc.mk oid "Rent" 500%float None submitted_for_review []
             false 1 3 in
  exists d',
    reviewer_action oid
      (ReviewerActionPayload.mk rv_reviewer request_reentry
         (Some EmptyString)) 5 6
      (Some {[oid := d]})
    = (Ok (serialize (Some d')), Some (<[oid := d']> {[oid := d]}))
    /\ Doc.comments d' = [Comment.mk c_reviewer "Re-entry requested" 6].
Proof.
  intros oid d.
  destruct (empty_comment_is_no_comment {[oid := d]} oid oid d 5 6
              eq_refl (lookup_singleton_eq _ _) eq_refl)
    as (_ & _ & Hr & _).
  exact (Hr rv_reviewer request_reentry eq_refl).
Defined.

(** * Further properties of the handlers *)

(** ** Identifiers *)

Lemma lower_lower (a : ascii) :
  ObjectIdOf.lower (ObjectIdOf.lower a) = ObjectIdOf.lower a.
Proof. destruct a as [[] [] [] [] [] [] [] []]; reflexivity. Qed.

Lemma is_hex_lower (a : ascii) :
  ObjectIdOf.is_hex (ObjectIdOf.lower a) = ObjectIdOf.is_hex a.
Proof. destruct a as [[] [] [] [] [] [] [] []]; reflexivity. Qed.

Lemma is_space_lower (a : ascii) :
  ObjectIdOf.is_space (ObjectIdOf.lower a) = ObjectIdOf.is_space a.
Proof. destruct a as [[] [] [] [] [] [] [] []]; reflexivity. Qed.

Lemma is_hex_not_space (a : ascii) :
  ObjectIdOf.is_hex a = true -> ObjectIdOf.is_space a = false.
Proof.
  destruct a as [[] [] [] [] [] [] [] []]; first [reflexivity | discriminate].
Qed.

Lemma lower_all_length (s : string) :
  String.length (ObjectIdOf.lower_all s) = String.length s.
Proof. induction s as [|a s IH]; cbn; [reflexivity | by rewrite IH]. Qed.

(** Reading ignores the case of the digits. *)
Lemma fromhex_lower_all (s : string) (pending : option ascii) :
  ObjectIdOf.fromhex (ObjectIdOf.lower <$> pending) (ObjectIdOf.lower_all s)
  = ObjectIdOf.fromhex pending s.
Proof.
  revert pending. induction s as [|a s IH]; intros [top|]; cbn;
    try reflexivity.
  - rewrite is_hex_lower, !lower_lower.
    destruct (ObjectIdOf.is_hex a); [|reflexivity].
    pose proof (IH None) as H. cbn in H. by rewrite H.
  - rewrite is_space_lower, is_hex_lower.
    destruct (ObjectIdOf.is_space a); [exact (IH None)|].
    destruct (ObjectIdOf.is_hex a); [|reflexivity].
    exact (IH (Some a)).
Qed.

Lemma parse_lower_all (s : string) :
  ObjectIdOf.parse (ObjectIdOf.lower_all s) = ObjectIdOf.parse s.
Proof.
  unfold ObjectIdOf.parse. rewrite lower_all_length.
  destruct (String.length s =? 24)%nat; [|reflexivity].
  exact (fromhex_lower_all s None).
Qed.

(** What is read is a text of lower-case hexadecimal digits, no longer than
    the text it is read from. *)
Lemma fromhex_result (s : string) (pending : option ascii) (r : string) :
  (forall top, pending = Some top -> ObjectIdOf.is_hex top = true) ->
  ObjectIdOf.fromhex pending s = Some r ->
  ObjectIdOf.all_hex r = true
  /\ ObjectIdOf.lower_all r = r
  /\ (String.length r
      <= String.length s
         + match pending with Some _ => 1 | None => 0 end)%nat.
Proof.
  revert pending r. induction s as [|a s IH]; intros [top|] r Hpend; cbn.
  - discriminate.
  - intros [= <-]. cbn. repeat split; lia.
  - destruct (ObjectIdOf.is_hex a) eqn:Ea; [|discriminate].
    destruct (ObjectIdOf.fromhex None s) as [rest|] eqn:Er; [|discriminate].
    intros [= <-].
    destruct (IH None rest) as (Hh & Hl & Hn); [discriminate | exact Er |].
    cbn in Hn |- *.
    rewrite !is_hex_lower, !lower_lower, Hh, Hl, Ea, (Hpend top eq_refl).
    repeat split; lia.
  - destruct (ObjectIdOf.is_space a).
    + intros H. destruct (IH None r) as (? & ? & Hn);
        [discriminate | exact H |].
      cbn in Hn. repeat split; [assumption | assumption | lia].
    + destruct (ObjectIdOf.is_hex a) eqn:Ea; [|discriminate].
      intros H. destruct (IH (Some a) r) as (? & ? & Hn);
        [by intros ? [= <-] | exact H |].
      cbn in Hn. repeat split; [assumption | assumption | lia].
Qed.

(** A text of lower-case hexadecimal digits, in even number, reads as
    itself. *)
Lemma fromhex_fixed (n : nat) (r : string) :
  String.length r = (2 * n)%nat ->
  ObjectIdOf.all_hex r = true ->
  ObjectIdOf.lower_all r = r ->
  ObjectIdOf.fromhex None r = Some r.
Proof.
  revert r. induction n as [|n IH]; intros r Hn Hh Hl.
  - destruct r; [reflexivity | discriminate].
  - destruct r as [|a [|b r]]; try (cbn in Hn; lia).
    cbn in Hh, Hl, Hn.
    apply andb_true_iff in Hh as (Ha & Hh).
    apply andb_true_iff in Hh as (Hb & Hh).
    injection Hl as La Lb Lr.
    cbn. rewrite (is_hex_not_space a Ha), Ha, Hb.
    rewrite (IH r); [by rewrite La, Lb | lia | exact Hh | exact Lr].
Qed.

(** ** The response to an identifier that is malformed or unknown *)

Lemma update_entry_bad_id (c : gmap string Doc.t) (entry_id : string)
    (p : UpdateEntryPayload.t) (now : datetime) :
  ObjectIdOf.parse entry_id = None ->
  update_entry entry_id p now (Some c)
  = (Raise (HTTPException 400 "Invalid entry id"), Some c).
Proof.
  intros Hp. unfold update_entry. erewrite bind_ok by reflexivity. cbn iota.
  erewrite bind_raise by (apply find_one_bad_id; exact Hp). reflexivity.
Qed.

Lemma submit_for_review_bad_id (c : gmap string Doc.t) (entry_id : string)
    (p : RolePayload.t) (t1 t2 : datetime) :
  ObjectIdOf.parse entry_id = None ->
  submit_for_review entry_id p t1 t2 (Some c)
  = (Raise (HTTPException 400 "Invalid entry id"), Some c).
Proof.
  intros Hp. unfold submit_for_review.
  erewrite bind_raise by (apply find_one_bad_id; exact Hp). reflexivity.
Qed.

Lemma reviewer_action_bad_id (c : gmap string Doc.t) (entry_id : string)
    (p : ReviewerActionPayload.t) (t1 t2 : datetime) :
  ObjectIdOf.parse entry_id = None ->
  reviewer_action entry_id p t1 t2 (Some c)
  = (Raise (HTTPException 400 "Invalid entry id"), Some c).
Proof.
  intros Hp. unfold reviewer_action.
  erewrite bind_raise by (apply find_one_bad_id; exact Hp). reflexivity.
Qed.

Lemma approver_action_bad_id (c : gmap string Doc.t) (entry_id : string)
    (p : ApproverActionPayload.t) (t1 t2 : datetime) :
  ObjectIdOf.parse entry_id = None ->
  approver_action entry_id p t1 t2 (Some c)
  = (Raise (HTTPException 400 "Invalid entry id"), Some c).
Proof.
  intros Hp. unfold approver_action.
  erewrite bind_raise by (apply find_one_bad_id; exact Hp). reflexivity.
Qed.

Lemma get_entry_bad_id (c : gmap string Doc.t) (entry_id : string) :
  ObjectIdOf.parse entry_id = None ->
  get_entry entry_id (Some c)
  = (Raise (HTTPException 400 "Invalid entry id"), Some c).
Proof.
  intros Hp. unfold get_entry.
  erewrite bind_raise by (apply find_one_bad_id; exact Hp). reflexivity.
Qed.

Lemma update_entry_missing (c : gmap string Doc.t) (entry_id oid : string)
    (p : UpdateEntryPayload.t) (now : datetime) :
  ObjectIdOf.parse entry_id = Some oid ->
  c !! oid = None ->
  update_entry entry_id p now (Some c)
  = (Raise (HTTPException 404 "Entry not found"), Some c).
Proof.
  intros Hp Hd. unfold update_entry. erewrite bind_ok by reflexivity.
  cbn iota. run_step Hp. rewrite Hd. reflexivity.
Qed.

Lemma submit_for_review_missing (c : gmap string Doc.t)
    (entry_id oid : string) (p : RolePayload.t) (t1 t2 : datetime) :
  ObjectIdOf.parse entry_id = Some oid ->
  c !! oid = None ->
  submit_for_review entry_id p t1 t2 (Some c)
  = (Raise (HTTPException 404 "Entry not found"), Some c).
Proof.
  intros Hp Hd. unfold submit_for_review. run_step Hp. rewrite Hd.
  reflexivity.
Qed.

Lemma reviewer_action_missing (c : gmap string Doc.t)
    (entry_id oid : string) (p : ReviewerActionPayload.t)
    (t1 t2 : datetime) :
  ObjectIdOf.parse entry_id = Some oid ->
  c !! oid = None ->
  reviewer_action entry_id p t1 t2 (Some c)
  = (Raise (HTTPException 404 "Entry not found"), Some c).
Proof.
  intros Hp Hd. unfold reviewer_action. run_step Hp. rewrite Hd.
  reflexivity.
Qed.

Lemma approver_action_missing (c : gmap string Doc.t)
    (entry_id oid : string) (p : ApproverActionPayload.t)
    (t1 t2 : datetime) :
  ObjectIdOf.parse entry_id = Some oid ->
  c !! oid = None ->
  approver_action entry_id p t1 t2 (Some c)
  = (Raise (HTTPException 404 "Entry not found"), Some c).
Proof.
  intros Hp Hd. unfold approver_action. run_step Hp. rewrite Hd.
  reflexivity.
Qed.

Lemma get_entry_missing (c : gmap string Doc.t) (entry_id oid : string) :
  ObjectIdOf.parse entry_id = Some oid ->
  c !! oid = None ->
  get_entry entry_id (Some c)
  = (Raise (HTTPException 404 "Entry not found"), Some c).
Proof.
  intros Hp Hd. unfold get_entry. run_step Hp. rewrite Hd. reflexivity.
Qed.

(** ** A request as a rewrite of the document it addresses *)

(** The response and the store of a request that finds its document. *)
Lemma handle_found (op : Op) (c : gmap string Doc.t)
    (entry_id oid : string) (d : Doc.t) :
  target op = Some entry_id ->
  ObjectIdOf.parse entry_id = Some oid ->
  c !! oid = Some d ->
  snd (handle op (Some c)) = Some (<[oid := doc_after op d]> c)
  /\ forall r, fst (handle op (Some c)) = Ok r ->
               r = serialize (Some (doc_after op d)).
Proof.
  intros Ht Hp Hd.
  assert (Hid : <[oid := d]> c = c) by (apply insert_id; exact Hd).
  destruct op as [body oid0 ta tb|eid p now|eid p ta tb|eid p ta tb
                 |eid p ta tb|eid];
    cbn [target] in Ht; try discriminate; injection Ht as ->;
    cbn [handle doc_after].
  - rewrite (update_entry_run _ _ _ _ _ _ Hp Hd).
    destruct (Doc.frozen d); [rewrite Hid; split; [done|discriminate]|].
    destruct (negb (status_in _ _));
      [rewrite Hid; split; [done|discriminate]|].
    destruct (Updates.is_empty _).
    + rewrite Hid. split; [done|]. cbn. by intros r [= <-].
    + split; [done|]. cbn. by intros r [= <-].
  - rewrite (submit_for_review_run _ _ _ _ _ _ _ Hp Hd).
    destruct (Doc.frozen d); [rewrite Hid; split; [done|discriminate]|].
    destruct (negb (role_in _ _));
      [rewrite Hid; split; [done|discriminate]|].
    destruct (negb (status_in _ _));
      [rewrite Hid; split; [done|discriminate]|].
    split; [done|]. cbn. by intros r [= <-].
  - rewrite (reviewer_action_run _ _ _ _ _ _ _ Hp Hd).
    destruct (Doc.frozen d); [rewrite Hid; split; [done|discriminate]|].
    destruct (negb (status_in _ _));
      [rewrite Hid; split; [done|discriminate]|].
    split; [done|]. cbn. by intros r [= <-].
  - rewrite (approver_action_run _ _ _ _ _ _ _ Hp Hd).
    destruct (Doc.frozen d); [rewrite Hid; split; [done|discriminate]|].
    destruct (negb (Status_eqb _ _));
      [rewrite Hid; split; [done|discriminate]|].
    split; [done|]. cbn. by intros r [= <-].
  - rewrite (get_entry_run _ _ _ _ Hp Hd), Hid.
    split; [done|]. cbn. by intros r [= <-].
Qed.

(** A request that does not find its document raises and writes nothing. *)
Lemma handle_not_found (op : Op) (c : gmap string Doc.t)
    (entry_id : string) :
  target op = Some entry_id ->
  match ObjectIdOf.parse entry_id with
  | Some oid => c !! oid = None
  | None => True
  end ->
  handle op (Some c)
  = (Raise
       (match ObjectIdOf.parse entry_id with
        | Some _ => HTTPException 404 "Entry not found"
        | None => HTTPException 400 "Invalid entry id"
        end), Some c).
Proof.
  intros Ht Hn.
  destruct op as [body oid0 ta tb|eid p now|eid p ta tb|eid p ta tb
                 |eid p ta tb|eid];
    cbn [target] in Ht; try discriminate; injection Ht as ->;
    cbn [handle];
    destruct (ObjectIdOf.parse entry_id) as [oid|] eqn:Hp.
  - by eapply update_entry_missing.
  - by apply update_entry_bad_id.
  - by eapply submit_for_review_missing.
  - by apply submit_for_review_bad_id.
  - by eapply reviewer_action_missing.
  - by apply reviewer_action_bad_id.
  - by eapply approver_action_missing.
  - by apply approver_action_bad_id.
  - by eapply get_entry_missing.
  - by apply get_entry_bad_id.
Qed.

(** What one request makes of a document of the store, whichever document
    it addresses. *)
Lemma exec_lookup (op : Op) (c : gmap string Doc.t) (oid : string)
    (d : Doc.t) :
  c !! oid = Some d ->
  exists c',
    exec op (Some c) = Some c'
    /\ (c' !! oid = Some d \/ c' !! oid = Some (doc_after op d)).
Proof.
  intros Hd. unfold exec.
  destruct (target op) as [entry_id|] eqn:Ht.
  - destruct (ObjectIdOf.parse entry_id) as [oid0|] eqn:Hp.
    + destruct (c !! oid0) as [d0|] eqn:Hd0.
      * destruct (handle_found op c entry_id oid0 d0 Ht Hp Hd0) as (E & _).
        eexists. split; [exact E|].
        destruct (decide (oid0 = oid)) as [->|Hne].
        -- right. rewrite lookup_insert_eq. congruence.
        -- left. by rewrite lookup_insert_ne.
      * exists c. split; [|by left].
        rewrite (handle_not_found op c entry_id Ht); [done|].
        by rewrite Hp.
    + exists c. split; [|by left].
      rewrite (handle_not_found op c entry_id Ht); [done|].
      by rewrite Hp.
  - destruct op; try discriminate. cbn [handle].
    rewrite create_entry_store.
    destruct (c !! oid0) eqn:H0; eexists; (split; [reflexivity|]); left;
      [exact Hd|].
    rewrite lookup_insert_ne; [exact Hd | congruence].
Qed.

(** ** What a request can make of a document *)

Ltac doc_after_cases :=
  repeat match goal with
         | |- context [if ?b then _ else _] => destruct b eqn:?
         end.

Lemma updated_doc_rest (p : UpdateEntryPayload.t) (now : datetime)
    (d : Doc.t) :
  Doc._id (updated_doc p now d) = Doc._id d
  /\ Doc.created_at (updated_doc p now d) = Doc.created_at d
  /\ Doc.updated_at (updated_doc p now d) = now
  /\ (is_Some (Doc.description d) ->
      is_Some (Doc.description (updated_doc p now d))).
Proof.
  destruct p as [[t|] [a|] [de|] r]; repeat split; cbn; eauto.
Qed.

Lemma doc_after_identity (op : Op) (d : Doc.t) :
  Doc._id (doc_after op d) = Doc._id d
  /\ Doc.created_at (doc_after op d) = Doc.created_at d.
Proof.
  destruct op; cbn [doc_after]; doc_after_cases; try (split; reflexivity).
  unfold submitted_doc. destruct (truthy _); split; reflexivity.
Qed.

Lemma doc_after_comments (op : Op) (d : Doc.t) :
  Doc.comments d `prefix_of` Doc.comments (doc_after op d)
  /\ (length (Doc.comments (doc_after op d))
      <= S (length (Doc.comments d)))%nat.
Proof.
  destruct op; cbn [doc_after]; doc_after_cases;
    try (split; [reflexivity | lia]).
  - destruct (updated_doc_keeps payload now d) as (_ & _ & ->).
    split; [reflexivity | lia].
  - unfold submitted_doc. destruct (truthy _); cbn.
    + split; [by apply prefix_app_r | rewrite length_app; cbn; lia].
    + split; [reflexivity | lia].
  - cbn. split; [by apply prefix_app_r | rewrite length_app; cbn; lia].
  - cbn. split; [by apply prefix_app_r | rewrite length_app; cbn; lia].
Qed.

Lemma doc_after_status (op : Op) (d : Doc.t) :
  Doc.status (doc_after op d) = Doc.status d
  \/ transition (Doc.status d) (Doc.status (doc_after op d)) = true.
Proof.
  destruct op; cbn [doc_after]; doc_after_cases; try (by left).
  - left. apply updated_doc_keeps.
  - right. destruct (submitted_doc_fields payload t_updated t_comment d)
      as (-> & _).
    destruct (Doc.status d); try discriminate; reflexivity.
  - right. cbn.
    destruct (Doc.status d), (ReviewerActionPayload.action payload);
      try discriminate; reflexivity.
  - right. cbn.
    destruct (Doc.status d), (ApproverActionPayload.action payload);
      try discriminate; reflexivity.
Qed.

Lemma doc_after_approved (op : Op) (d : Doc.t) :
  Doc.status d = approved -> doc_after op d = d.
Proof.
  intros Hs. destruct op; cbn [doc_after]; rewrite ?Hs;
    cbn [status_in existsb Status_eqb negb orb];
    doc_after_cases; reflexivity.
Qed.

Lemma doc_after_description (op : Op) (d : Doc.t) :
  is_Some (Doc.description d) ->
  is_Some (Doc.description (doc_after op d)).
Proof.
  intros H. destruct op; cbn [doc_after]; doc_after_cases; try exact H.
  - by apply updated_doc_rest.
  - unfold submitted_doc. destruct (truthy _); exact H.
Qed.

Lemma doc_after_frozen (op : Op) (d : Doc.t) :
  Doc.frozen d = false ->
  Doc.frozen (doc_after op d) = true ->
  exists entry_id p t1 t2,
    op = Approve entry_id p t1 t2
    /\ ApproverActionPayload.action p = approve
    /\ Doc.status d = reviewed
    /\ Doc.status (doc_after op d) = approved.
Proof.
  intros Hf.
  destruct op as [body oid0 ta tb|eid p now|eid p ta tb|eid p ta tb
                 |eid p ta tb|eid];
    cbn [doc_after]; rewrite Hf; doc_after_cases; try congruence.
  - destruct (updated_doc_keeps p now d) as (_ & -> & _). congruence.
  - destruct (submitted_doc_fields p ta tb d) as (_ & ->). congruence.
  - cbn. congruence.
  - cbn. destruct (ApproverActionPayload.action p) eqn:Ea; cbn;
      [|congruence].
    intros _. exists eid, p, ta, tb. repeat split; [exact Ea|].
    destruct (Doc.status d); try discriminate; reflexivity.
Qed.

Lemma doc_after_fields (op : Op) (d : Doc.t) :
  (forall entry_id p now, op <> UpdateFields entry_id p now) ->
  Doc.title (doc_after op d) = Doc.title d
  /\ Doc.amount (doc_after op d) = Doc.amount d
  /\ Doc.description (doc_after op d) = Doc.description d.
Proof.
  intros Hop.
  destruct op; cbn [doc_after]; doc_after_cases;
    first [ done
          | exfalso; by eapply Hop
          | unfold submitted_doc; destruct (truthy _); done ].
Qed.

(** A property of documents that holds across every rewrite holds across
    every sequence of requests. *)
Lemma exec_all_lookup (P : Doc.t -> Doc.t -> Prop) :
  (forall d, P d d) ->
  (forall d1 d2 d3, P d1 d2 -> P d2 d3 -> P d1 d3) ->
  (forall op d, P d (doc_after op d)) ->
  forall (ops : list Op) (c : gmap string Doc.t) (oid : string)
         (d : Doc.t),
    c !! oid = Some d ->
    exists c' d',
      exec_all ops (Some c) = Some c' /\ c' !! oid = Some d' /\ P d d'.
Proof.
  intros Hrefl Htrans Hstep ops.
  induction ops as [|op ops IH]; intros c oid d Hd.
  - exists c, d. repeat split; [exact Hd | apply Hrefl].
  - destruct (exec_lookup op c oid d Hd) as (c1 & E1 & [H1|H1]);
      destruct (IH c1 oid _ H1) as (c2 & d2 & E2 & H2 & HP);
      exists c2, d2; (split; [cbn; rewrite E1; exact E2|]);
      (split; [exact H2|]); [exact HP|].
    eapply Htrans; [apply Hstep | exact HP].
Qed.

(** X7: across any sequence of requests a document stays in the store under
    the same [_id] and [created_at], and its comments only grow at the end:
    the comments it had are a prefix of the comments it has. *)
Theorem comments_append_only (ops : list Op) (c : gmap string Doc.t)
    (oid : string) (d : Doc.t) :
  c !! oid = Some d ->
  exists c' d',
    exec_all ops (Some c) = Some c'
    /\ c' !! oid = Some d'
    /\ Doc._id d' = Doc._id d
    /\ Doc.created_at d' = Doc.created_at d
    /\ Doc.comments d `prefix_of` Doc.comments d'.
Proof.
  intros Hd.
  destruct (exec_all_lookup
              (fun d d' => Doc._id d' = Doc._id d
                           /\ Doc.created_at d' = Doc.created_at d
                           /\ Doc.comments d `prefix_of` Doc.comments d'))
    with (ops := ops) (c := c) (oid := oid) (d := d)
    as (c' & d' & E & H & HP); [| | |exact Hd|by exists c', d'].
  - intros d0. repeat split; reflexivity.
  - intros d1 d2 d3 (I1 & C1 & P1) (I2 & C2 & P2).
    repeat split; [congruence | congruence | by etrans].
  - intros op d0. destruct (doc_after_identity op d0) as (? & ?).
    destruct (doc_after_comments op d0) as (? & _). done.
Qed.

Lemma comments_append_only_witness :
  let oid := "65a1b2c3d4e5f60718293a4b" in
  let d :=
    Doc.mk oid "Rent" 500%float None submitted_for_review
      [Comment.mk c_creator "please check" 4] false 1 3 in
  exists c' d',
    exec_all
      [Review oid
         (ReviewerActionPayload.mk rv_reviewer request_reentry None) 5 6;
       UpdateFields oid
         (UpdateEntryPayload.mk (Some "Rent, May") None None creator) 7]
      (Some {[oid := d]}) = Some c'
    /\ c' !! oid = Some d'
    /\ Doc.comments d `prefix_of` Doc.comments d'.
Proof.
  intros oid d.
  destruct (comments_append_only
              [Review oid
                 (ReviewerActionPayload.mk rv_reviewer request_reentry None)
                 5 6;
               UpdateFields oid
                 (UpdateEntryPayload.mk (Some "Rent, May") None None creator)
                 7]
              {[oid := d]} oid d (lookup_singleton_eq _ _))
    as (c' & d' & E & H & _ & _ & P).
  by exists c', d'.
Defined.

(** X8: across any sequence of requests the status of a document moves
    along the handlers' transitions only: draft or reentry_requested to
    submitted_for_review, submitted_for_review or recheck_requested to
    reviewed or reentry_requested, reviewed to approved or
    recheck_requested. *)
Theorem status_follows_transitions (ops : list Op)
    (c : gmap string Doc.t) (oid : string) (d : Doc.t) :
  c !! oid = Some d ->
  exists c' d',
    exec_all ops (Some c) = Some c'
    /\ c' !! oid = Some d'
    /\ rtc transition_rel (Doc.status d) (Doc.status d').
Proof.
  intros Hd.
  destruct (exec_all_lookup
              (fun d d' => rtc transition_rel (Doc.status d) (Doc.status d')))
    with (ops := ops) (c := c) (oid := oid) (d := d)
    as (c' & d' & E & H & HP); [| | |exact Hd|by exists c', d'].
  - intros d0. apply rtc_refl.
  - intros d1 d2 d3 R1 R2. by etrans.
  - intros op d0. destruct (doc_after_status op d0) as [->|Ht].
    + apply rtc_refl.
    + by apply rtc_once.
Qed.

Lemma status_follows_transitions_witness :
  let oid := "65a1b2c3d4e5f60718293a4b" in
  let d := Doc.mk oid "Rent" 500%float None reviewed [] false 1 5 in
  exists c' d',
    exec_all
      [Approve oid
         (ApproverActionPayload.mk ap_approver request_rereview None) 7 8;
       Submit oid (RolePayload.mk creator None) 9 10]
      (Some {[oid := d]}) = Some c'
    /\ c' !! oid = Some d'
    /\ rtc transition_rel reviewed (Doc.status d').
Proof.
  intros oid d.
  exact (status_follows_transitions
           [Approve oid
              (ApproverActionPayload.mk ap_approver request_rereview None)
              7 8;
            Submit oid (RolePayload.mk creator None) 9 10]
           {[oid := d]} oid d (lookup_singleton_eq _ _)).
Defined.

(** X9: an entry in status [approved] is never changed again, by any
    sequence of requests, whether it is frozen or not: no handler accepts
    that status. *)
Theorem approved_entry_immutable (ops : list Op) (c : gmap string Doc.t)
    (oid : string) (d : Doc.t) :
  c !! oid = Some d ->
  Doc.status d = approved ->
  exists c', exec_all ops (Some c) = Some c' /\ c' !! oid = Some d.
Proof.
  intros Hd Hs.
  destruct (exec_all_lookup
              (fun d d' => Doc.status d = approved -> d' = d))
    with (ops := ops) (c := c) (oid := oid) (d := d)
    as (c' & d' & E & H & HP); [| | |exact Hd|].
  - done.
  - intros d1 d2 d3 H1 H2 Ha. rewrite <- (H1 Ha). apply H2.
    by rewrite (H1 Ha).
  - intros op d0. apply doc_after_approved.
  - exists c'. split; [exact E|]. by rewrite <- (HP Hs).
Qed.

Lemma approved_entry_immutable_witness :
  let oid := "65a1b2c3d4e5f60718293a4b" in
  let d := Doc.mk oid "Rent" 500%float None approved [] false 1 2 in
  exists c',
    exec_all
      [UpdateFields oid
         (UpdateEntryPayload.mk (Some "Rent, May") None None blackadam) 7;
       Approve oid
         (ApproverActionPayload.mk ap_blackadam request_rereview None) 8 9]
      (Some {[oid := d]}) = Some c'
    /\ c' !! oid = Some d.
Proof.
  intros oid d.
  exact (approved_entry_immutable
           [UpdateFields oid
              (UpdateEntryPayload.mk (Some "Rent, May") None None blackadam)
              7;
            Approve oid
              (ApproverActionPayload.mk ap_blackadam request_rereview None)
              8 9]
           {[oid := d]} oid d (lookup_singleton_eq _ _) eq_refl).
Defined.

(** X10: the only request that freezes an entry is an approver action
    [approve] on a reviewed entry, which leaves it approved: if a document
    is unfrozen before a request and frozen after it, the request is that
    one. *)
Theorem frozen_only_by_approve (op : Op) (c c' : gmap string Doc.t)
    (oid : string) (d d' : Doc.t) :
  c !! oid = Some d ->
  Doc.frozen d = false ->
  exec op (Some c) = Some c' ->
  c' !! oid = Some d' ->
  Doc.frozen d' = true ->
  exists entry_id p t1 t2,
    op = Approve entry_id p t1 t2
    /\ ApproverActionPayload.action p = approve
    /\ Doc.status d = reviewed
    /\ Doc.status d' = approved.
Proof.
  intros Hd Hf E Hd' Hf'.
  destruct (exec_lookup op c oid d Hd) as (c1 & E1 & H1).
  rewrite E in E1. injection E1 as <-.
  destruct H1 as [H1|H1]; rewrite Hd' in H1; injection H1 as ->.
  - congruence.
  - by apply doc_after_frozen.
Qed.

Lemma frozen_only_by_approve_witness :
  let oid := "65a1b2c3d4e5f60718293a4b" in
  let d := Doc.mk oid "Rent" 500%float None reviewed [] false 1 5 in
  let d' :=
    Doc.mk oid "Rent" 500%float None approved
      [Comment.mk c_approver "Approved" 8] true 1 7 in
  exists entry_id p t1 t2,
    Approve oid (ApproverActionPayload.mk ap_approver approve None) 7 8
    = Approve entry_id p t1 t2
    /\ ApproverActionPayload.action p = approve
    /\ Doc.status d = reviewed
    /\ Doc.status d' = approved.
Proof.
  intros oid d d'.
  apply (frozen_only_by_approve
           (Approve oid (ApproverActionPayload.mk ap_approver approve None)
              7 8)
           {[oid := d]} {[oid := d']} oid d d').
  - apply lookup_singleton_eq.
  - reflexivity.
  - vm_compute. reflexivity.
  - apply lookup_singleton_eq.
  - reflexivity.
Defined.

(** X11: a request other than a field update leaves the title, the amount
    and the description of every document as they are. *)
Theorem workflow_requests_keep_fields (op : Op) (c : gmap string Doc.t)
    (oid : string) (d : Doc.t) :
  c !! oid = Some d ->
  (forall entry_id p now, op <> UpdateFields entry_id p now) ->
  exists c' d',
    exec op (Some c) = Some c'
    /\ c' !! oid = Some d'
    /\ Doc.title d' = Doc.title d
    /\ Doc.amount d' = Doc.amount d
    /\ Doc.description d' = Doc.description d.
Proof.
  intros Hd Hop.
  destruct (exec_lookup op c oid d Hd) as (c1 & E1 & [H1|H1]).
  - by exists c1, d.
  - exists c1, (doc_after op d). split; [exact E1|]. split; [exact H1|].
    by apply doc_after_fields.
Qed.

Lemma workflow_requests_keep_fields_witness :
  let oid := "65a1b2c3d4e5f60718293a4b" in
  let d := Doc.mk oid "Rent" 500%float (Some "May") draft [] false 1 2 in
  exists c' d',
    exec (Submit oid (RolePayload.mk blackadam (Some "ready")) 3 4)
      (Some {[oid := d]}) = Some c'
    /\ c' !! oid = Some d'
    /\ Doc.title d' = "Rent"
    /\ Doc.amount d' = 500%float
    /\ Doc.description d' = Some "May".
Proof.
  intros oid d.
  apply (workflow_requests_keep_fields
           (Submit oid (RolePayload.mk blackadam (Some "ready")) 3 4)
           {[oid := d]} oid d (lookup_singleton_eq _ _)).
  discriminate.
Defined.

(** X12: a description, once an entry has one, can be replaced but never
    removed: across any sequence of requests an entry that has a
    description still has one. *)
Theorem description_never_cleared (ops : list Op) (c : gmap string Doc.t)
    (oid : string) (d : Doc.t) :
  c !! oid = Some d ->
  is_Some (Doc.description d) ->
  exists c' d',
    exec_all ops (Some c) = Some c'
    /\ c' !! oid = Some d'
    /\ is_Some (Doc.description d').
Proof.
  intros Hd Hs.
  destruct (exec_all_lookup
              (fun d d' => is_Some (Doc.description d) ->
                           is_Some (Doc.description d')))
    with (ops := ops) (c := c) (oid := oid) (d := d)
    as (c' & d' & E & H & HP); [| | |exact Hd|].
  - done.
  - intros d1 d2 d3 H1 H2 H0. auto.
  - intros op d0. apply doc_after_description.
  - exists c', d'. auto.
Qed.

Lemma description_never_cleared_witness :
  let oid := "65a1b2c3d4e5f60718293a4b" in
  let d := Doc.mk oid "Rent" 500%float (Some "May") draft [] false 1 2 in
  exists c' d',
    exec_all
      [UpdateFields oid
         (UpdateEntryPayload.mk (Some "Rent, May") None None creator) 7]
      (Some {[oid := d]}) = Some c'
    /\ c' !! oid = Some d'
    /\ is_Some (Doc.description d').
Proof.
  intros oid d.
  apply (description_never_cleared
           [UpdateFields oid
              (UpdateEntryPayload.mk (Some "Rent, May") None None creator) 7]
           {[oid := d]} oid d (lookup_singleton_eq _ _)).
  by eexists.
Defined.

(** X13: a sequence of [n] requests appends at most [n] comments to an
    entry. *)
Theorem comments_grow_by_one (ops : list Op) (c : gmap string Doc.t)
    (oid : string) (d : Doc.t) :
  c !! oid = Some d ->
  exists c' d',
    exec_all ops (Some c) = Some c'
    /\ c' !! oid = Some d'
    /\ (length (Doc.comments d) <= length (Doc.comments d')
        <= length (Doc.comments d) + length ops)%nat.
Proof.
  revert c d. induction ops as [|op ops IH]; intros c d Hd.
  - exists c, d. cbn. repeat split; [exact Hd | lia | lia].
  - destruct (exec_lookup op c oid d Hd) as (c1 & E1 & [H1|H1]);
      destruct (IH c1 _ H1) as (c2 & d2 & E2 & H2 & Hl);
      exists c2, d2; (split; [cbn; rewrite E1; exact E2|]);
      (split; [exact H2|]); cbn [length]; [lia|].
    destruct (doc_after_comments op d) as (Hp & Hle).
    apply prefix_length in Hp. lia.
Qed.

Lemma comments_grow_by_one_witness :
  let oid := "65a1b2c3d4e5f60718293a4b" in
  let d := Doc.mk oid "Rent" 500%float None draft [] false 1 2 in
  exists c' d',
    exec_all
      [Submit oid (RolePayload.mk creator (Some "ready")) 3 4;
       Fetch oid]
      (Some {[oid := d]}) = Some c'
    /\ c' !! oid = Some d'
    /\ (0 <= length (Doc.comments d') <= 2)%nat.
Proof.
  intros oid d.
  exact (comments_grow_by_one
           [Submit oid (RolePayload.mk creator (Some "ready")) 3 4;
            Fetch oid]
           {[oid := d]} oid d (lookup_singleton_eq _ _)).
Defined.

(** ** Rejections *)

Lemma unconfigured_database_none (op : Op) :
  exists e,
    handle op None = (Raise e, None)
    /\ (e = TypeError \/ exists code detail, e = HTTPException code detail).
Proof. destruct op; eexists; (split; [reflexivity|]); eauto. Qed.

(** The exceptions a request can raise once it has found its document;
    the document is then left as it is. *)
Lemma handle_found_raise (op : Op) (c : gmap string Doc.t)
    (entry_id oid : string) (d : Doc.t) (e : exn) :
  target op = Some entry_id ->
  ObjectIdOf.parse entry_id = Some oid ->
  c !! oid = Some d ->
  fst (handle op (Some c)) = Raise e ->
  doc_after op d = d
  /\ e ∈ [HTTPException 400 "Entry is frozen and cannot be updated";
          HTTPException 400 "Entry is frozen";
          HTTPException 400
            "Entry can only be updated in draft or reentry_requested state";
          HTTPException 403 "Only creator can submit for review";
          HTTPException 400
            "Only draft or reentry_requested entries can be submitted";
          HTTPException 400 "Entry is not ready for reviewer action";
          HTTPException 400
            "Only reviewed entries can be approved or re-reviewed"].
Proof.
  intros Ht Hp Hd.
  destruct op as [body oid0 ta tb|eid p now|eid p ta tb|eid p ta tb
                 |eid p ta tb|eid];
    cbn [target] in Ht; try discriminate; injection Ht as ->;
    cbn [handle doc_after].
  - rewrite (update_entry_run _ _ _ _ _ _ Hp Hd).
    doc_after_cases; cbn; intros [= <-]; (split; [done|]); set_solver.
  - rewrite (submit_for_review_run _ _ _ _ _ _ _ Hp Hd).
    doc_after_cases; cbn; intros [= <-]; (split; [done|]); set_solver.
  - rewrite (reviewer_action_run _ _ _ _ _ _ _ Hp Hd).
    doc_after_cases; cbn; intros [= <-]; (split; [done|]); set_solver.
  - rewrite (approver_action_run _ _ _ _ _ _ _ Hp Hd).
    doc_after_cases; cbn; intros [= <-]; (split; [done|]); set_solver.
  - rewrite (get_entry_run _ _ _ _ Hp Hd). discriminate.
Qed.

(** X1: [obj_id] ignores the case of the digits, and the identifier it
    returns is a text of at most twenty-four lower-case hexadecimal digits.
    [obj_id] takes that identifier back, unchanged, exactly when it has all
    twenty-four: a text of twenty-four characters with white space between
    its bytes is accepted, but the shorter identifier it yields is refused. *)
Theorem obj_id_canonical (id_str oid : string) (db db' : Database) :
  obj_id id_str db = (Ok oid, db') ->
  obj_id (ObjectIdOf.lower_all id_str) db = (Ok oid, db)
  /\ ObjectIdOf.all_hex oid = true
  /\ ObjectIdOf.lower_all oid = oid
  /\ (String.length oid <= 24)%nat
  /\ (obj_id oid db = (Ok oid, db) <-> String.length oid = 24%nat).
Proof.
  unfold obj_id.
  destruct (ObjectIdOf.parse id_str) as [o|] eqn:Hp; [|discriminate].
  intros [= <- <-]. rewrite parse_lower_all, Hp.
  unfold ObjectIdOf.parse in Hp.
  destruct (String.length id_str =? 24)%nat eqn:El; [|discriminate].
  apply Nat.eqb_eq in El.
  destruct (fromhex_result id_str None o) as (Hh & Hl & Hn);
    [discriminate | exact Hp |].
  cbn in Hn. repeat split; [exact Hh | exact Hl | lia | |].
  - unfold ObjectIdOf.parse.
    destruct (String.length o =? 24)%nat eqn:Eo;
      [intros _; by apply Nat.eqb_eq | discriminate].
  - intros Eo. unfold ObjectIdOf.parse. rewrite Eo. cbn [Nat.eqb].
    by rewrite (fromhex_fixed 12 o Eo Hh Hl).
Qed.

Lemma obj_id_canonical_witness :
  let id_str := "65A1B2C3D4E5F60718293A  " in
  let oid := "65a1b2c3d4e5f60718293a" in
  obj_id id_str None = (Ok oid, None)
  /\ obj_id (ObjectIdOf.lower_all id_str) None = (Ok oid, None)
  /\ (obj_id oid None = (Ok oid, None) <-> String.length oid = 24%nat).
Proof.
  intros id_str oid.
  destruct (obj_id_canonical id_str oid None None eq_refl)
    as (Hl & _ & _ & _ & Hiff).
  split; [reflexivity|]. split; [exact Hl | exact Hiff].
Defined.

(** X2: with an identifier text that [obj_id] refuses (one that is not
    twenty-four characters long, or that [bytes.fromhex] does not read),
    every request that addresses an entry raises 400 "Invalid entry id" and
    writes nothing, whatever its payload. *)
Theorem malformed_id_rejected (op : Op) (entry_id : string)
    (c : gmap string Doc.t) :
  target op = Some entry_id ->
  ObjectIdOf.parse entry_id = None ->
  handle op (Some c)
  = (Raise (HTTPException 400 "Invalid entry id"), Some c)
  /\ error_kind (HTTPException 400 "Invalid entry id") = Some BadId.
Proof.
  intros Ht Hp. split; [|reflexivity].
  rewrite (handle_not_found op c entry_id Ht); rewrite Hp; done.
Qed.

Lemma malformed_id_rejected_witness :
  handle (Submit "not-an-id" (RolePayload.mk creator None) 3 4) (Some ∅)
  = (Raise (HTTPException 400 "Invalid entry id"), Some ∅).
Proof.
  apply (malformed_id_rejected
           (Submit "not-an-id" (RolePayload.mk creator None) 3 4)
           "not-an-id" ∅ eq_refl eq_refl).
Defined.

(** X3: with a well-formed identifier under which the store has no
    document, every request that addresses an entry raises 404 "Entry not
    found" and writes nothing, whatever its payload. *)
Theorem unknown_id_rejected (op : Op) (entry_id oid : string)
    (c : gmap string Doc.t) :
  target op = Some entry_id ->
  ObjectIdOf.parse entry_id = Some oid ->
  c !! oid = None ->
  handle op (Some c)
  = (Raise (HTTPException 404 "Entry not found"), Some c)
  /\ error_kind (HTTPException 404 "Entry not found") = Some NotFound.
Proof.
  intros Ht Hp Hd. split; [|reflexivity].
  rewrite (handle_not_found op c entry_id Ht); rewrite Hp; done.
Qed.

Lemma unknown_id_rejected_witness :
  handle
    (Approve "65a1b2c3d4e5f60718293a4b"
       (ApproverActionPayload.mk ap_approver approve None) 7 8)
    (Some ∅)
  = (Raise (HTTPException 404 "Entry not found"), Some ∅).
Proof.
  apply (unknown_id_rejected
           (Approve "65a1b2c3d4e5f60718293a4b"
              (ApproverActionPayload.mk ap_approver approve None) 7 8)
           "65a1b2c3d4e5f60718293a4b" "65a1b2c3d4e5f60718293a4b" ∅
           eq_refl eq_refl (lookup_empty _)).
Defined.

(** X4: while [db] is [None] each of the six entry handlers answers with
    status 500 and [db] stays [None]: [create_entry] and [update_entry] by
    their own "Database not configured" rejection, [submit_for_review],
    [reviewer_action], [approver_action] and [get_entry] by the [TypeError]
    of subscripting [None], which they do not catch. *)
Theorem unconfigured_database_answers_500 (op : Op) :
  exists e,
    handle op None = (Raise e, None)
    /\ response_status e = 500
    /\ (e = HTTPException 500 "Database not configured"
        <-> (exists entry_id p now, op = UpdateFields entry_id p now)
            \/ (exists body oid t1 t2, op = Create body oid t1 t2)).
Proof.
  destruct op; eexists; (split; [reflexivity|]); (split; [reflexivity|]);
    split; try discriminate; eauto 10;
    intros [(? & ? & ? & ?)|(? & ? & ? & ? & ?)]; discriminate.
Qed.

(** X5: the raises of the handlers precede their writes. When a handler
    that addresses an entry raises one of its own exceptions (an
    [HTTPException], or the [TypeError] of subscripting a [None] database),
    it has written nothing: the database is exactly as it was. Exceptions
    raised inside the store calls are not part of the model, and this says
    nothing of them. *)
Theorem rejected_request_writes_nothing (op : Op) (entry_id : string)
    (db db' : Database) (e : exn) :
  target op = Some entry_id ->
  handle op db = (Raise e, db') ->
  db' = db
  /\ (e = TypeError \/ exists code detail, e = HTTPException code detail).
Proof.
  intros Ht Hr. destruct db as [c|].
  - destruct (ObjectIdOf.parse entry_id) as [oid|] eqn:Hp.
    + destruct (c !! oid) as [d|] eqn:Hd.
      * destruct (handle_found op c entry_id oid d Ht Hp Hd) as (Hs & _).
        destruct (handle_found_raise op c entry_id oid d e Ht Hp Hd)
          as (Hsame & Hin); [by rewrite Hr|].
        rewrite Hr, Hsame in Hs. cbn in Hs. rewrite Hs. split.
        -- f_equal. by apply insert_id.
        -- right.
           repeat (apply elem_of_cons in Hin as [->|Hin]; [eauto|]).
           by apply elem_of_nil in Hin.
      * rewrite (handle_not_found op c entry_id Ht) in Hr;
          [|by rewrite Hp].
        rewrite Hp in Hr. injection Hr as <- <-. eauto.
    + rewrite (handle_not_found op c entry_id Ht) in Hr;
        [|by rewrite Hp].
      rewrite Hp in Hr. injection Hr as <- <-. eauto.
  - destruct (unconfigured_database_none op) as (e0 & Hn & He).
    rewrite Hn in Hr. injection Hr as <- <-. by split.
Qed.

Lemma rejected_request_writes_nothing_witness :
  let oid := "65a1b2c3d4e5f60718293a4b" in
  let d := Doc.mk oid "Rent" 500%float None reviewed [] false 1 5 in
  snd (handle (Submit oid (RolePayload.mk creator (Some "again")) 6 7)
         (Some {[oid := d]}))
  = Some {[oid := d]}.
Proof.
  intros oid d.
  refine (proj1 (rejected_request_writes_nothing
                   (Submit oid (RolePayload.mk creator (Some "again")) 6 7)
                   oid (Some {[oid := d]}) _
                   (HTTPException 400
                      ("Only draft or reentry_requested "
                       +:+ "entries can be submitted"))
                   eq_refl _)).
  vm_compute. reflexivity.
Defined.

(** X6: on a configured database, the rejections the handlers that
    address an entry raise themselves all carry status 400, 403 or 404 and
    one of the specification's kinds; their only rejection with status 500
    is the one for a database that is not configured. Exceptions raised
    inside the store calls are not part of the model, and this says nothing
    of them. *)
Theorem rejections_are_client_errors (op : Op) (entry_id : string)
    (c : gmap string Doc.t) (db' : Database) (code : Z) (detail : string) :
  target op = Some entry_id ->
  handle op (Some c) = (Raise (HTTPException code detail), db') ->
  (code = 400 \/ code = 403 \/ code = 404)
  /\ is_Some (error_kind (HTTPException code detail))
  /\ error_kind (HTTPException code detail) <> Some StoreUnavailable.
Proof.
  intros Ht Hr.
  destruct (ObjectIdOf.parse entry_id) as [oid|] eqn:Hp.
  - destruct (c !! oid) as [d|] eqn:Hd.
    + destruct (handle_found_raise op c entry_id oid d
                  (HTTPException code detail) Ht Hp Hd)
        as (_ & Hin); [by rewrite Hr|].
      repeat (apply elem_of_cons in Hin as [[= -> ->]|Hin];
              [cbn; split; [tauto | split; [by eexists | discriminate]]|]).
      by apply elem_of_nil in Hin.
    + rewrite (handle_not_found op c entry_id Ht) in Hr; [|by rewrite Hp].
      rewrite Hp in Hr. injection Hr as <- <- _.
      cbn; split; [tauto | split; [by eexists | discriminate]].
  - rewrite (handle_not_found op c entry_id Ht) in Hr; [|by rewrite Hp].
    rewrite Hp in Hr. injection Hr as <- <- _.
    cbn; split; [tauto | split; [by eexists | discriminate]].
Qed.

Lemma rejections_are_client_errors_witness :
  (403 = 400 \/ 403 = 403 \/ 403 = 404)
  /\ is_Some
       (error_kind (HTTPException 403 "Only creator can submit for review"))
  /\ error_kind (HTTPException 403 "Only creator can submit for review")
     <> Some StoreUnavailable.
Proof.
  pose (oid := "65a1b2c3d4e5f60718293a4b").
  pose (d := Doc.mk oid "Rent" 500%float None draft [] false 1 2).
  apply (rejections_are_client_errors
           (Submit oid (RolePayload.mk approver None) 3 4) oid
           {[oid := d]} (Some {[oid := d]})
           403 "Only creator can submit for review" eq_refl).
  vm_compute. reflexivity.
Defined.

(** ** The handlers one by one *)

(** A title update on an entry a reviewer has just sent back. *)
Lemma update_entry_sets_fields_aux (c : gmap string Doc.t)
    (entry_id oid : string) (d : Doc.t) (title : string) (role : Role)
    (t_updated t_comment now : datetime) (p : ReviewerActionPayload.t) :
  ObjectIdOf.parse entry_id = Some oid ->
  c !! oid = Some (reviewed_doc p t_updated t_comment d) ->
  Doc.frozen (reviewed_doc p t_updated t_comment d) = false ->
  ReviewerActionPayload.action p = request_reentry ->
  update_entry entry_id (UpdateEntryPayload.mk (Some title) None None role)
    now (Some c)
  = (Ok (serialize
           (Some (updated_doc
                    (UpdateEntryPayload.mk (Some title) None None role) now
                    (reviewed_doc p t_updated t_comment d)))),
     Some (<[oid := updated_doc
                      (UpdateEntryPayload.mk (Some title) None None role)
                      now (reviewed_doc p t_updated t_comment d)]> c)).
Proof.
  intros Hp Hd Hf Ha.
  rewrite (update_entry_run _ _ _ _ _ _ Hp Hd), Hf.
  cbn. rewrite Ha. reflexivity.
Qed.

(** X14: a field update that goes through (unfrozen entry in draft or
    reentry_requested, at least one of title, amount, description supplied)
    sets exactly the supplied fields, an empty text included, and
    [updated_at]; it leaves the status, the comments, the frozen flag,
    [_id] and [created_at] as they are, and returns the stored document. *)
Theorem update_entry_sets_supplied_fields (c : gmap string Doc.t)
    (entry_id oid : string) (d : Doc.t) (p : UpdateEntryPayload.t)
    (now : datetime) :
  ObjectIdOf.parse entry_id = Some oid ->
  c !! oid = Some d ->
  Doc.frozen d = false ->
  Doc.status d = draft \/ Doc.status d = reentry_requested ->
  is_Some (UpdateEntryPayload.title p)
  \/ is_Some (UpdateEntryPayload.amount p)
  \/ is_Some (UpdateEntryPayload.description p) ->
  let d' :=
    Doc.mk (Doc._id d)
      (default (Doc.title d) (UpdateEntryPayload.title p))
      (default (Doc.amount d) (UpdateEntryPayload.amount p))
      (match UpdateEntryPayload.description p with
       | Some v => Some v
       | None => Doc.description d
       end)
      (Doc.status d) (Doc.comments d) (Doc.frozen d) (Doc.created_at d)
      now in
  update_entry entry_id p now (Some c)
  = (Ok (serialize (Some d')), Some (<[oid := d']> c)).
Proof.
  intros Hp Hd Hf Hs Hsup d'.
  rewrite (update_entry_run _ _ _ _ _ _ Hp Hd), Hf.
  assert (Hin : status_in (Doc.status d) [draft; reentry_requested] = true)
    by (destruct Hs as [-> | ->]; reflexivity).
  rewrite Hin. cbn [negb].
  destruct p as [[t|] [a|] [de|] r]; cbn in Hsup; try reflexivity.
  destruct Hsup as [[? ?]|[[? ?]|[? ?]]]; discriminate.
Qed.

Lemma update_entry_sets_supplied_fields_witness :
  let oid := "65a1b2c3d4e5f60718293a4b" in
  let d :=
    Doc.mk oid "Rent" 500%float (Some "May") reentry_requested [] false
      1 2 in
  let d' :=
    Doc.mk oid EmptyString 500%float (Some "May") reentry_requested []
      false 1 9 in
  update_entry oid
    (UpdateEntryPayload.mk (Some EmptyString) None None reviewer) 9
    (Some {[oid := d]})
  = (Ok (serialize (Some d')), Some (<[oid := d']> {[oid := d]})).
Proof.
  intros oid d d'.
  apply (update_entry_sets_supplied_fields {[oid := d]} oid oid d
           (UpdateEntryPayload.mk (Some EmptyString) None None reviewer) 9
           eq_refl (lookup_singleton_eq _ _) eq_refl).
  - right. reflexivity.
  - left. by eexists.
Defined.

(** X15: outside its allowed statuses each mutating handler raises its
    state rejection, with status 400, and writes nothing: field update and
    submission outside draft and reentry_requested, reviewer action outside
    submitted_for_review and recheck_requested, approver action outside
    reviewed. For a submission the declared role must be one the handler
    accepts, since it checks the role first. *)
Theorem wrong_status_rejected (c : gmap string Doc.t)
    (entry_id oid : string) (d : Doc.t) :
  ObjectIdOf.parse entry_id = Some oid ->
  c !! oid = Some d ->
  Doc.frozen d = false ->
  (Doc.status d <> draft -> Doc.status d <> reentry_requested ->
   (forall p now,
       update_entry entry_id p now (Some c)
       = (Raise (HTTPException 400
            "Entry can only be updated in draft or reentry_requested state"),
          Some c))
   /\ (forall p t1 t2,
          RolePayload.role p = creator \/ RolePayload.role p = blackadam ->
          submit_for_review entry_id p t1 t2 (Some c)
          = (Raise (HTTPException 400
               "Only draft or reentry_requested entries can be submitted"),
             Some c)))
  /\ (Doc.status d <> submitted_for_review ->
      Doc.status d <> recheck_requested ->
      forall p t1 t2,
        reviewer_action entry_id p t1 t2 (Some c)
        = (Raise (HTTPException 400 "Entry is not ready for reviewer action"),
           Some c))
  /\ (Doc.status d <> reviewed ->
      forall p t1 t2,
        approver_action entry_id p t1 t2 (Some c)
        = (Raise (HTTPException 400
             "Only reviewed entries can be approved or re-reviewed"),
           Some c)).
Proof.
  intros Hp Hd Hf. split; [|split].
  - intros H1 H2.
    assert (Hin : status_in (Doc.status d) [draft; reentry_requested]
                  = false)
      by (destruct (Doc.status d); try reflexivity; congruence).
    split.
    + intros p now.
      rewrite (update_entry_run _ _ _ _ _ _ Hp Hd), Hf, Hin. reflexivity.
    + intros p t1 t2 Hr.
      rewrite (submit_for_review_run _ _ _ _ _ _ _ Hp Hd), Hf, Hin.
      destruct Hr as [-> | ->]; reflexivity.
  - intros H1 H2 p t1 t2.
    rewrite (reviewer_action_run _ _ _ _ _ _ _ Hp Hd), Hf.
    destruct (Doc.status d); try reflexivity; congruence.
  - intros H1 p t1 t2.
    rewrite (approver_action_run _ _ _ _ _ _ _ Hp Hd), Hf.
    destruct (Doc.status d); try reflexivity; congruence.
Qed.

Lemma wrong_status_rejected_witness :
  let oid := "65a1b2c3d4e5f60718293a4b" in
  let d :=
    Doc.mk oid "Rent" 500%float None submitted_for_review [] false 1 3 in
  update_entry oid
    (UpdateEntryPayload.mk (Some "Rent, May") None None creator) 9
    (Some {[oid := d]})
  = (Raise (HTTPException 400
       "Entry can only be updated in draft or reentry_requested state"),
     Some {[oid := d]}).
Proof.
  intros oid d.
  destruct (wrong_status_rejected {[oid := d]} oid oid d eq_refl
              (lookup_singleton_eq _ _) eq_refl) as (H & _).
  destruct H as (Hu & _); [discriminate | discriminate |].
  apply Hu.
Defined.

(** X16: a submission checks the role before the status: on an unfrozen
    entry, whatever its status, a declared role other than creator and
    blackadam is answered with the 403 rejection, never with the state
    rejection. *)
Theorem submit_checks_role_first (c : gmap string Doc.t)
    (entry_id oid : string) (d : Doc.t) (p : RolePayload.t)
    (t1 t2 : datetime) :
  ObjectIdOf.parse entry_id = Some oid ->
  c !! oid = Some d ->
  Doc.frozen d = false ->
  RolePayload.role p = reviewer \/ RolePayload.role p = approver ->
  submit_for_review entry_id p t1 t2 (Some c)
  = (Raise (HTTPException 403 "Only creator can submit for review"), Some c).
Proof.
  intros Hp Hd Hf Hr.
  rewrite (submit_for_review_run _ _ _ _ _ _ _ Hp Hd), Hf.
  destruct Hr as [-> | ->]; reflexivity.
Qed.

Lemma submit_checks_role_first_witness :
  let oid := "65a1b2c3d4e5f60718293a4b" in
  let d := Doc.mk oid "Rent" 500%float None reviewed [] false 1 5 in
  submit_for_review oid (RolePayload.mk approver None) 6 7
    (Some {[oid := d]})
  = (Raise (HTTPException 403 "Only creator can submit for review"),
     Some {[oid := d]}).
Proof.
  intros oid d.
  apply (submit_checks_role_first {[oid := d]} oid oid d
           (RolePayload.mk approver None) 6 7 eq_refl
           (lookup_singleton_eq _ _) eq_refl).
  right. reflexivity.
Defined.

(** X17: the reviewer and approver handlers do not look at the declared
    role: two payloads with the same action and comment have the same
    outcome on every database, whichever of the two admissible roles each
    declares. *)
Theorem review_and_approve_ignore_role (entry_id : string)
    (t1 t2 : datetime) (db : Database) :
  (forall p1 p2 : ReviewerActionPayload.t,
      ReviewerActionPayload.action p1 = ReviewerActionPayload.action p2 ->
      ReviewerActionPayload.comment p1 = ReviewerActionPayload.comment p2 ->
      reviewer_action entry_id p1 t1 t2 db
      = reviewer_action entry_id p2 t1 t2 db)
  /\ (forall p1 p2 : ApproverActionPayload.t,
         ApproverActionPayload.action p1 = ApproverActionPayload.action p2 ->
         ApproverActionPayload.comment p1
         = ApproverActionPayload.comment p2 ->
         approver_action entry_id p1 t1 t2 db
         = approver_action entry_id p2 t1 t2 db).
Proof.
  split; intros [r1 a1 c1] [r2 a2 c2]; cbn; intros -> ->; reflexivity.
Qed.

Lemma review_and_approve_ignore_role_witness :
  let oid := "65a1b2c3d4e5f60718293a4b" in
  let d :=
    Doc.mk oid "Rent" 500%float None submitted_for_review [] false 1 3 in
  reviewer_action oid
    (ReviewerActionPayload.mk rv_reviewer mark_reviewed None) 5 6
    (Some {[oid := d]})
  = reviewer_action oid
      (ReviewerActionPayload.mk rv_blackadam mark_reviewed None) 5 6
      (Some {[oid := d]}).
Proof.
  intros oid d.
  apply (proj1 (review_and_approve_ignore_role oid 5 6 (Some {[oid := d]}))
           (ReviewerActionPayload.mk rv_reviewer mark_reviewed None)
           (ReviewerActionPayload.mk rv_blackadam mark_reviewed None));
    reflexivity.
Defined.

(** X18: a submission that goes through (unfrozen entry in draft or
    reentry_requested, role creator or blackadam) with a non-empty comment
    stores the entry with status submitted_for_review, [updated_at] at the
    first clock reading and one more comment, by [creator], carrying the
    text as given and the second clock reading; every other field is as it
    was. *)
Theorem submit_for_review_result (c : gmap string Doc.t)
    (entry_id oid : string) (d : Doc.t) (role : Role) (text : string)
    (t_updated t_comment : datetime) :
  ObjectIdOf.parse entry_id = Some oid ->
  c !! oid = Some d ->
  Doc.frozen d = false ->
  Doc.status d = draft \/ Doc.status d = reentry_requested ->
  role = creator \/ role = blackadam ->
  text <> EmptyString ->
  let d' :=
    Doc.mk (Doc._id d) (Doc.title d) (Doc.amount d) (Doc.description d)
      submitted_for_review
      (Doc.comments d ++ [Comment.mk c_creator text t_comment])
      false (Doc.created_at d) t_updated in
  submit_for_review entry_id (RolePayload.mk role (Some text))
    t_updated t_comment (Some c)
  = (Ok (serialize (Some d')), Some (<[oid := d']> c)).
Proof.
  intros Hp Hd Hf Hs Hr Ht d'.
  assert (E : submitted_doc (RolePayload.mk role (Some text))
                t_updated t_comment d = d').
  { unfold submitted_doc. cbn [RolePayload.comment truthy].
    apply String.eqb_neq in Ht. rewrite Ht.
    unfold Updates.apply, push_comment. cbn. subst d'.
    rewrite Hf. reflexivity. }
  rewrite (submit_for_review_ok _ _ _ _ _ _ _ Hp Hd Hf).
  - rewrite E. reflexivity.
  - destruct Hr as [-> | ->]; reflexivity.
  - destruct Hs as [-> | ->]; reflexivity.
Qed.

Lemma submit_for_review_result_witness :
  let oid := "65a1b2c3d4e5f60718293a4b" in
  let d := Doc.mk oid "Rent" 500%float None draft [] false 1 2 in
  let d' :=
    Doc.mk oid "Rent" 500%float None submitted_for_review
      [Comment.mk c_creator "ready" 4] false 1 3 in
  submit_for_review oid (RolePayload.mk blackadam (Some "ready")) 3 4
    (Some {[oid := d]})
  = (Ok (serialize (Some d')), Some (<[oid := d']> {[oid := d]})).
Proof.
  intros oid d d'.
  apply (submit_for_review_result {[oid := d]} oid oid d blackadam "ready"
           3 4 eq_refl (lookup_singleton_eq _ _) eq_refl).
  - left. reflexivity.
  - right. reflexivity.
  - discriminate.
Defined.

(** X19: a reviewer action that goes through (unfrozen entry in
    submitted_for_review or recheck_requested) stores the entry with status
    reviewed for [mark_reviewed] and reentry_requested for
    [request_reentry], [updated_at] at the first clock reading, and one
    more comment, by [reviewer], at the second clock reading; the frozen
    flag and every other field are as they were. *)
Theorem reviewer_action_result (c : gmap string Doc.t)
    (entry_id oid : string) (d : Doc.t) (p : ReviewerActionPayload.t)
    (t_updated t_comment : datetime) :
  ObjectIdOf.parse entry_id = Some oid ->
  c !! oid = Some d ->
  Doc.frozen d = false ->
  Doc.status d = submitted_for_review \/ Doc.status d = recheck_requested ->
  exists message,
    let d' :=
      Doc.mk (Doc._id d) (Doc.title d) (Doc.amount d) (Doc.description d)
        (match ReviewerActionPayload.action p with
         | mark_reviewed => reviewed
         | request_reentry => reentry_requested
         end)
        (Doc.comments d ++ [Comment.mk c_reviewer message t_comment])
        false (Doc.created_at d) t_updated in
    reviewer_action entry_id p t_updated t_comment (Some c)
    = (Ok (serialize (Some d')), Some (<[oid := d']> c))
    /\ message <> EmptyString
    /\ (forall text, ReviewerActionPayload.comment p = Some text ->
                     text <> EmptyString -> message = text).
Proof.
  intros Hp Hd Hf Hs.
  exists (str_or (ReviewerActionPayload.comment p)
            (reviewer_default_msg (ReviewerActionPayload.action p))).
  cbn zeta. split; [|split].
  - rewrite (reviewer_action_ok _ _ _ _ _ _ _ Hp Hd Hf).
    + match goal with
      | |- (Ok (serialize (Some ?a)), _) = (Ok (serialize (Some ?b)), _) =>
          assert (E : a = b)
            by (unfold reviewed_doc, Updates.apply, push_comment; cbn;
                rewrite Hf;
                destruct (ReviewerActionPayload.action p); reflexivity)
      end.
      rewrite E. reflexivity.
    + destruct Hs as [-> | ->]; reflexivity.
  - unfold str_or. destruct (ReviewerActionPayload.comment p) as [s|].
    + destruct (String.eqb s EmptyString) eqn:E.
      * destruct (ReviewerActionPayload.action p); discriminate.
      * by apply String.eqb_neq.
    + destruct (ReviewerActionPayload.action p); discriminate.
  - intros text -> Ht. cbn. apply String.eqb_neq in Ht. by rewrite Ht.
Qed.

Lemma reviewer_action_result_witness :
  let oid := "65a1b2c3d4e5f60718293a4b" in
  let d :=
    Doc.mk oid "Rent" 500%float None recheck_requested [] false 1 3 in
  exists message,
    let d' :=
      Doc.mk oid "Rent" 500%float None reviewed
        [Comment.mk c_reviewer message 6] false 1 5 in
    reviewer_action oid
      (ReviewerActionPayload.mk rv_blackadam mark_reviewed (Some "fine"))
      5 6 (Some {[oid := d]})
    = (Ok (serialize (Some d')), Some (<[oid := d']> {[oid := d]}))
    /\ message = "fine".
Proof.
  intros oid d.
  destruct (reviewer_action_result {[oid := d]} oid oid d
              (ReviewerActionPayload.mk rv_blackadam mark_reviewed
                 (Some "fine"))
              5 6 eq_refl (lookup_singleton_eq _ _) eq_refl
              (or_intror eq_refl))
    as (message & Hrun & _ & Hm).
  exists message. split; [exact Hrun|].
  apply Hm; [reflexivity | discriminate].
Defined.

(** X20: an approval that goes through (approver action [approve] on an
    unfrozen reviewed entry) is final: the entry is stored approved and
    frozen with one more approver comment, and every later sequence of
    requests, creations included, leaves that document exactly as stored. *)
Theorem approve_is_final (c : gmap string Doc.t) (entry_id oid : string)
    (d : Doc.t) (role : ApproverRole) (comment : option string)
    (t_updated t_comment : datetime) :
  ObjectIdOf.parse entry_id = Some oid ->
  c !! oid = Some d ->
  Doc.frozen d = false ->
  Doc.status d = reviewed ->
  let d' :=
    Doc.mk (Doc._id d) (Doc.title d) (Doc.amount d) (Doc.description d)
      approved
      (Doc.comments d
       ++ [Comment.mk c_approver (str_or comment "Approved") t_comment])
      true (Doc.created_at d) t_updated in
  approver_action entry_id (ApproverActionPayload.mk role approve comment)
    t_updated t_comment (Some c)
  = (Ok (serialize (Some d')), Some (<[oid := d']> c))
  /\ forall ops : list Op,
     exists c', exec_all ops (Some (<[oid := d']> c)) = Some c'
                /\ c' !! oid = Some d'.
Proof.
  intros Hp Hd Hf Hs d'. split.
  - rewrite (approver_action_ok _ _ _ _ _ _ _ Hp Hd Hf Hs). reflexivity.
  - intros ops. apply exec_all_keeps_frozen;
      [apply lookup_insert_eq | reflexivity].
Qed.

Lemma approve_is_final_witness :
  let oid := "65a1b2c3d4e5f60718293a4b" in
  let d := Doc.mk oid "Rent" 500%float None reviewed [] false 1 5 in
  let d' :=
    Doc.mk oid "Rent" 500%float None approved
      [Comment.mk c_approver "Approved" 8] true 1 7 in
  approver_action oid (ApproverActionPayload.mk ap_approver approve None)
    7 8 (Some {[oid := d]})
  = (Ok (serialize (Some d')), Some (<[oid := d']> {[oid := d]})).
Proof.
  intros oid d d'.
  apply (approve_is_final {[oid := d]} oid oid d ap_approver None 7 8
           eq_refl (lookup_singleton_eq _ _) eq_refl eq_refl).
Defined.

(** X21: the re-entry loop. On an unfrozen entry in submitted_for_review or
    recheck_requested, a reviewer's [request_reentry], then a field update
    of the title, then a creator's submission all go through: the entry is
    back in submitted_for_review with the new title, the reviewer's
    "Re-entry requested" comment appended, and [updated_at] at the
    submission's clock reading. *)
Theorem reentry_scenario_result (c : gmap string Doc.t)
    (entry_id oid : string) (d : Doc.t) (title : string)
    (t1 t2 t3 t4 t5 : datetime) :
  ObjectIdOf.parse entry_id = Some oid ->
  c !! oid = Some d ->
  Doc.frozen d = false ->
  Doc.status d = submitted_for_review \/ Doc.status d = recheck_requested ->
  let d' :=
    Doc.mk (Doc._id d) title (Doc.amount d) (Doc.description d)
      submitted_for_review
      (Doc.comments d ++ [Comment.mk c_reviewer "Re-entry requested" t2])
      false (Doc.created_at d) t4 in
  exists c',
    reentry_scenario entry_id title t1 t2 t3 t4 t5 (Some c)
    = (Ok (serialize (Some d')), Some c')
    /\ c' !! oid = Some d'.
Proof.
  intros Hp Hd Hf Hs d'. unfold reentry_scenario.
  erewrite bind_ok by
    (eapply reviewer_action_ok;
     [exact Hp | exact Hd | exact Hf
     | destruct Hs as [-> | ->]; reflexivity]).
  erewrite bind_ok by
    (eapply update_entry_sets_fields_aux;
     [exact Hp | apply lookup_insert_eq | cbn; exact Hf | reflexivity]).
  erewrite submit_for_review_ok;
    [ | exact Hp | apply lookup_insert_eq | cbn; exact Hf
      | reflexivity | reflexivity ].
  match goal with
  | |- exists c', (Ok (serialize (Some ?a)), _) = _ /\ _ =>
      assert (E : a = d')
        by (unfold submitted_doc, updated_doc, reviewed_doc, Updates.apply,
              push_comment; cbn; subst d'; rewrite Hf; reflexivity)
  end.
  rewrite E. eexists. split; [reflexivity|]. apply lookup_insert_eq.
Qed.

Lemma reentry_scenario_result_witness :
  let oid := "65a1b2c3d4e5f60718293a4b" in
  let d :=
    Doc.mk oid "Rent" 500%float None submitted_for_review [] false 1 3 in
  let d' :=
    Doc.mk oid "Rent, May" 500%float None submitted_for_review
      [Comment.mk c_reviewer "Re-entry requested" 6] false 1 8 in
  exists c',
    reentry_scenario oid "Rent, May" 5 6 7 8 9 (Some {[oid := d]})
    = (Ok (serialize (Some d')), Some c')
    /\ c' !! oid = Some d'.
Proof.
  intros oid d d'.
  apply (reentry_scenario_result {[oid := d]} oid oid d "Rent, May"
           5 6 7 8 9 eq_refl (lookup_singleton_eq _ _) eq_refl).
  left. reflexivity.
Defined.

(** ** Reading back *)

(** X22: [get_entry] never writes, and it reads back what a handler
    answered: when a request that addresses an entry returns an entry, in a
    store where every document sits under its own [_id] and every key is
    the text of a twelve-byte identifier, fetching by the [id] of that
    entry returns the same entry and leaves the database as the request
    left it. *)
Theorem fetch_returns_response (op : Op) (entry_id : string)
    (c : gmap string Doc.t) (e : Entry.t) (db' : Database) :
  target op = Some entry_id ->
  well_keyed c ->
  canonical_keys c ->
  handle op (Some c) = (Ok (Some e), db') ->
  get_entry (Entry.id e) db' = (Ok (Some e), db')
  /\ forall (id_str : string) (db : Database),
       snd (get_entry id_str db) = db.
Proof.
  intros Ht Hk Hc Hr. split.
  - destruct (ObjectIdOf.parse entry_id) as [oid|] eqn:Hp.
    + destruct (c !! oid) as [d|] eqn:Hd.
      * destruct (handle_found op c entry_id oid d Ht Hp Hd) as (Hs & Hok).
        rewrite Hr in Hs, Hok. cbn in Hs, Hok. subst db'.
        specialize (Hok _ eq_refl). cbn [serialize] in Hok.
        injection Hok as ->.
        assert (Hid : Doc._id (doc_after op d) = oid).
        { destruct (doc_after_identity op d) as (-> & _).
          exact (Hk _ _ Hd). }
        rewrite (get_entry_run (<[oid := doc_after op d]> c) _ oid
                   (doc_after op d)).
        -- reflexivity.
        -- cbn [Entry.id]. rewrite Hid. exact (Hc _ _ Hd).
        -- apply lookup_insert_eq.
      * rewrite (handle_not_found op c entry_id Ht) in Hr;
          [discriminate | by rewrite Hp].
    + rewrite (handle_not_found op c entry_id Ht) in Hr;
        [discriminate | by rewrite Hp].
  - intros id_str [c0|]; [|reflexivity].
    unfold get_entry.
    destruct (ObjectIdOf.parse id_str) as [oid|] eqn:Hp.
    + run_step Hp. destruct (c0 !! oid); reflexivity.
    + erewrite bind_raise by (apply find_one_bad_id; exact Hp). reflexivity.
Qed.

Lemma fetch_returns_response_witness :
  let oid := "65a1b2c3d4e5f60718293a4b" in
  let d := Doc.mk oid "Rent" 500%float None draft [] false 1 2 in
  let d' :=
    Doc.mk oid "Rent" 500%float None submitted_for_review [] false 1 3 in
  get_entry oid (Some {[oid := d']})
  = (Ok (serialize (Some d')), Some {[oid := d']}).
Proof.
  intros oid d d'.
  assert (Hk : well_keyed ({[oid := d]} : gmap string Doc.t)).
  { intros k x Hx. apply lookup_singleton_Some in Hx as [<- <-].
    reflexivity. }
  assert (Hc : canonical_keys ({[oid := d]} : gmap string Doc.t)).
  { intros k x Hx. apply lookup_singleton_Some in Hx as [<- <-].
    reflexivity. }
  destruct (fetch_returns_response
              (Submit "65A1B2C3D4E5F60718293A4B"
                 (RolePayload.mk creator None) 3 4)
              "65A1B2C3D4E5F60718293A4B" {[oid := d]}
              {| Entry.id := oid; Entry.title := "Rent";
                 Entry.amount := 500%float; Entry.description := None;
                 Entry.status := submitted_for_review;
                 Entry.comments := []; Entry.frozen := false;
                 Entry.created_at := isoformat 1;
                 Entry.updated_at := isoformat 3 |}
              (Some {[oid := d']}) eq_refl Hk Hc)
    as (Hget & _).
  - vm_compute. reflexivity.
  - exact Hget.
Defined.

Lemma exec_well_keyed (op : Op) (c : gmap string Doc.t) :
  well_keyed c ->
  exists c', exec op (Some c) = Some c' /\ well_keyed c'.
Proof.
  intros Hk. unfold exec.
  destruct (target op) as [entry_id|] eqn:Ht.
  - destruct (ObjectIdOf.parse entry_id) as [oid|] eqn:Hp.
    + destruct (c !! oid) as [d|] eqn:Hd.
      * destruct (handle_found op c entry_id oid d Ht Hp Hd) as (E & _).
        eexists. split; [exact E|].
        intros k x Hx. destruct (decide (oid = k)) as [->|Hne].
        -- rewrite lookup_insert_eq in Hx. injection Hx as <-.
           destruct (doc_after_identity op d) as (-> & _). by apply Hk.
        -- rewrite lookup_insert_ne in Hx by exact Hne. by apply Hk.
      * exists c. split; [|exact Hk].
        rewrite (handle_not_found op c entry_id Ht); [done|].
        by rewrite Hp.
    + exists c. split; [|exact Hk].
      rewrite (handle_not_found op c entry_id Ht); [done|].
      by rewrite Hp.
  - destruct op; try discriminate. cbn [handle].
    rewrite create_entry_store.
    destruct (c !! oid) eqn:H0; eexists; (split; [reflexivity|]);
      [exact Hk|].
    intros k x Hx. destruct (decide (oid = k)) as [->|Hne].
    + rewrite lookup_insert_eq in Hx. by injection Hx as <-.
    + rewrite lookup_insert_ne in Hx by exact Hne. by apply Hk.
Qed.

(** X23: in every store the requests build from an empty collection, each
    document sits under its own [_id]: the [id] of a serialized entry is
    the key of its document. *)
Theorem well_keyed_reachable (ops : list Op) (c : gmap string Doc.t) :
  exec_all ops (Some ∅) = Some c ->
  well_keyed c.
Proof.
  assert (Hgen : forall ops c0, well_keyed c0 ->
            exists c', exec_all ops (Some c0) = Some c' /\ well_keyed c').
  { clear. intros ops. induction ops as [|op ops IH]; intros c0 Hk.
    - by exists c0.
    - destruct (exec_well_keyed op c0 Hk) as (c1 & E1 & H1).
      destruct (IH c1 H1) as (c2 & E2 & H2).
      exists c2. split; [|exact H2]. cbn. rewrite E1. exact E2. }
  intros E. destruct (Hgen ops ∅) as (c' & E' & Hk).
  - intros k x Hx. by rewrite lookup_empty in Hx.
  - rewrite E in E'. by injection E' as <-.
Qed.

Lemma well_keyed_reachable_witness :
  let oid := "65a1b2c3d4e5f60718293a4b" in
  well_keyed
    {[oid := Doc.mk oid "Rent" 500%float None submitted_for_review []
               false 1 3]}.
Proof.
  intros oid.
  apply (well_keyed_reachable
           [Create
              (AccountingEntry.mk_body "Rent" 500%float None None None None)
              oid 1 2;
            Submit oid (RolePayload.mk creator None) 3 4]).
  vm_compute. reflexivity.
Defined.
